(** * YoutubeDownloader: the download orchestrator of [main.py] and the
    slots of [gui.py], embedded in Rocq.

    The Python code is embedded shallowly:
    - a Python [dict] is a [gmap] with [string] keys;
    - a [str] (and a [bytes]) is a [string], one [ascii] per byte of its
      UTF-8 encoding; the separators the code looks for ([/], [.], the
      ASCII letters of [.mp4]) are single bytes that never occur inside a
      multi-byte sequence;
    - an exception is a value of [exn]; code that can raise lives in the
      monad [M], which threads the downloader object [self] and collects
      the observable events of a run (callbacks invoked, external programs
      started, files removed) in the order they happen;
    - the collaborators that are not part of the repository (the yt-dlp
      library, the ffprobe / ffmpeg processes, the file system) are
      described by a [world]: every behaviour they can show is an input of
      the model. *)

From Stdlib Require Import ZArith String Ascii List Lia.
From stdpp Require Import base option list gmap strings pretty.

Local Open Scope string_scope.
Local Open Scope Z_scope.
Local Open Scope list_scope.

(** ** Python values, exceptions and the library functions the code calls *)

Module Py.

(** The values a progress payload carries under the keys the hook reads. *)
Inductive value : Type :=
  | VNone
  | VBool (b : bool)
  | VInt (z : Z)
  | VStr (s : string).

#[global] Instance value_eq_dec : EqDecision value.
Proof. solve_decision. Defined.

(** Truth value of an object, as [if x:] and [x and y] test it. *)
Definition truthy (v : value) : bool :=
  match v with
  | VNone => false
  | VBool b => b
  | VInt z => negb (z =? 0)
  | VStr s => negb (String.eqb s EmptyString)
  end.

Definition type_name (v : value) : string :=
  match v with
  | VNone => "NoneType"
  | VBool _ => "bool"
  | VInt _ => "int"
  | VStr _ => "str"
  end.

(** [str(v)], which is what an f-string inserts for [{v}]. *)
Definition str (v : value) : string :=
  match v with
  | VNone => "None"
  | VBool true => "True"
  | VBool false => "False"
  | VInt z => pretty z
  | VStr s => s
  end.

(** Exception classes, as far as the handlers of the code tell them apart.
    All of them derive from [Exception]; [CalledProcessError] derives from
    [subprocess.SubprocessError], [OSError] (with [FileNotFoundError] and
    [PermissionError]) does not. [OtherException] stands for the errors of
    the downloader library ([DownloadError] and the like). *)
Inductive exn_class : Type :=
  | KeyError
  | TypeError
  | OSError
  | CalledProcessError
  | OtherException.

#[global] Instance exn_class_eq_dec : EqDecision exn_class.
Proof. solve_decision. Defined.

(** An exception: its class and [str(e)]. *)
Record exn : Type := Exn { exn_cls : exn_class; exn_str : string }.

#[global] Instance exn_eq_dec : EqDecision exn.
Proof. solve_decision. Defined.

(** [isinstance(e, subprocess.SubprocessError)] *)
Definition is_SubprocessError (e : exn) : bool :=
  match exn_cls e with CalledProcessError => true | _ => false end.

(** *** [str] methods *)

Definition startswith (s prefix : string) : bool := String.prefix prefix s.

Fixpoint endswith_char (s : string) (c : ascii) : bool :=
  match s with
  | EmptyString => false
  | String a EmptyString => Ascii.eqb a c
  | String _ r => endswith_char r c
  end.

Definition lower_char (c : ascii) : ascii :=
  let n := nat_of_ascii c in
  if ((65 <=? n) && (n <=? 90))%nat then ascii_of_nat (n + 32) else c.

(** [s.lower()] on the ASCII letters. No character outside ASCII lowers to
    one of [.], [m], [p], [4], so the comparison of a lowered extension with
    [".mp4"] is the one Python makes. *)
Fixpoint lower (s : string) : string :=
  match s with
  | EmptyString => EmptyString
  | String c r => String (lower_char c) (lower r)
  end.

(** [s.rfind(c)] for a one-character [c]: the highest index, or -1. *)
Fixpoint rfind (s : string) (c : ascii) : Z :=
  match s with
  | EmptyString => -1
  | String a r =>
      let j := rfind r c in
      if 0 <=? j then j + 1 else if Ascii.eqb a c then 0 else -1
  end.

(** [s[i:]] and [s[:i]] for [0 <= i]. *)
Fixpoint slice_from (s : string) (i : nat) {struct i} : string :=
  match i, s with
  | O, _ => s
  | S i', String _ r => slice_from r i'
  | S _, EmptyString => EmptyString
  end.

Fixpoint slice_to (s : string) (i : nat) {struct i} : string :=
  match i, s with
  | O, _ => EmptyString
  | S i', String a r => String a (slice_to r i')
  | S _, EmptyString => EmptyString
  end.

(** The ASCII whitespace [bytes.strip()] removes. *)
Definition is_bytes_space (c : ascii) : bool :=
  match nat_of_ascii c with
  | 9 | 10 | 11 | 12 | 13 | 32 => true
  | _ => false
  end%nat.

(** The whitespace [str.strip()] removes, among the ASCII characters. *)
Definition is_str_space (c : ascii) : bool :=
  match nat_of_ascii c with
  | 9 | 10 | 11 | 12 | 13 | 28 | 29 | 30 | 31 | 32 => true
  | _ => false
  end%nat.

Fixpoint lstrip (sp : ascii -> bool) (s : string) : string :=
  match s with
  | EmptyString => EmptyString
  | String c r => if sp c then lstrip sp r else s
  end.

Fixpoint rstrip (sp : ascii -> bool) (s : string) : string :=
  match s with
  | EmptyString => EmptyString
  | String c r =>
      match rstrip sp r with
      | EmptyString => if sp c then EmptyString else String c EmptyString
      | r' => String c r'
      end
  end.

Definition strip (sp : ascii -> bool) (s : string) : string :=
  rstrip sp (lstrip sp s).

Definition bytes_strip : string -> string := strip is_bytes_space.
Definition str_strip : string -> string := strip is_str_space.

(** [sub in s] *)
Fixpoint contains (s sub : string) : bool :=
  startswith s sub ||
  match s with
  | EmptyString => false
  | String _ r => contains r sub
  end.

(** *** [os.path] (posixpath: the program targets macOS) *)

(** [os.path.basename(p)]: [i = p.rfind('/') + 1; return p[i:]];
    [TypeError] for an argument that is not a path. *)
Definition basename_str (p : string) : string :=
  slice_from p (Z.to_nat (rfind p "/" + 1)).

Definition not_a_path (v : value) : exn :=
  Exn TypeError ("expected str, bytes or os.PathLike object, not " +:+ type_name v).

Definition basename (v : value) : exn + string :=
  match v with
  | VStr p => inr (basename_str p)
  | _ => inl (not_a_path v)
  end.

(** The loop of [genericpath._splitext] that skips the leading dots of the
    file name: [n] positions from [filenameIndex] up to [dotIndex] are
    inspected, the first one that is not a dot makes the split. *)
Fixpoint splitext_scan (rest : string) (n : nat) : bool :=
  match n, rest with
  | S n', String c r => if Ascii.eqb c "." then splitext_scan r n' else true
  | _, _ => false
  end.

Definition splitext_str (p : string) : string * string :=
  let sepIndex := rfind p "/" in
  let dotIndex := rfind p "." in
  if (sepIndex <? dotIndex) &&
     splitext_scan (slice_from p (Z.to_nat (sepIndex + 1)))
                   (Z.to_nat (dotIndex - (sepIndex + 1)))
  then (slice_to p (Z.to_nat dotIndex), slice_from p (Z.to_nat dotIndex))
  else (p, EmptyString).

Definition splitext (v : value) : exn + (string * string) :=
  match v with
  | VStr p => inr (splitext_str p)
  | _ => inl (not_a_path v)
  end.

(** [os.path.join(a, b)] for two strings. *)
Definition join (a b : string) : string :=
  if startswith b "/" then b
  else if String.eqb a EmptyString || endswith_char a "/" then a +:+ b
  else a +:+ "/" +:+ b.

(** *** [repr] of a [str] and of a list of them *)

Fixpoint contains_char (s : string) (c : ascii) : bool :=
  match s with
  | EmptyString => false
  | String a r => Ascii.eqb a c || contains_char r c
  end.

Definition hex_digit (n : nat) : ascii :=
  (if n <? 10 then ascii_of_nat (48 + n) else ascii_of_nat (87 + n))%nat.

Definition backslash : ascii := ascii_of_nat 92.
Definition double_quote : ascii := ascii_of_nat 34.

(** One character of [repr(s)] inside the quote [q]. Bytes above 127 are
    parts of encoded characters and are kept. *)
Definition repr_char (q c : ascii) : string :=
  let n := nat_of_ascii c in
  if Ascii.eqb c q || Ascii.eqb c backslash then String backslash (String c EmptyString)
  else if (n =? 9)%nat then String backslash "t"
  else if (n =? 10)%nat then String backslash "n"
  else if (n =? 13)%nat then String backslash "r"
  else if ((n <? 32) || (n =? 127))%nat
       then String backslash
              (String "x" (String (hex_digit (n / 16))
                             (String (hex_digit (n mod 16)) EmptyString)))
  else String c EmptyString.

Fixpoint repr_body (q : ascii) (s : string) : string :=
  match s with
  | EmptyString => EmptyString
  | String c r => repr_char q c +:+ repr_body q r
  end.

Definition repr_str (s : string) : string :=
  let q : ascii :=
    if contains_char s "'" && negb (contains_char s double_quote)
    then double_quote else "'"%char in
  String q (repr_body q s +:+ String q EmptyString).

Fixpoint join_with (sep : string) (l : list string) : string :=
  match l with
  | [] => EmptyString
  | [x] => x
  | x :: r => x +:+ sep +:+ join_with sep r
  end.

Definition repr_list (l : list string) : string :=
  "[" +:+ join_with ", " (map repr_str l) +:+ "]".

End Py.

Import Py.

(** ** What a run does: notifications and external calls *)

(** A call of one of the four functions of the callback bag. [data] of a
    progress update is a [dict] or [None]. *)
Inductive notification : Type :=
  | LogMessage (message : string)
  | UpdateProgress (status : string) (data : option (gmap string value))
  | OnComplete
  | OnError (error_msg : string).

(** The key under which the bag holds the function. *)
Definition callback_key (n : notification) : string :=
  match n with
  | LogMessage _ => "log_message"
  | UpdateProgress _ _ => "update_progress"
  | OnComplete => "on_complete"
  | OnError _ => "on_error"
  end.

(** The two notifications that end a request. *)
Definition is_terminal (n : notification) : bool :=
  match n with
  | OnComplete | OnError _ => true
  | _ => false
  end.

(** The values of the option dict handed to [yt_dlp.YoutubeDL]. A
    post-processor is a [dict] from strings to strings. *)
Inductive hook : Type := self_progress_hook.

Inductive optvalue : Type :=
  | OStr (s : string)
  | OBool (b : bool)
  | OCustomLogger
  | OHooks (hooks : list hook)
  | OPostprocessors (pps : list (gmap string string)).

#[global] Instance hook_eq_dec : EqDecision hook.
Proof. solve_decision. Defined.
#[global] Instance optvalue_eq_dec : EqDecision optvalue.
Proof. solve_decision. Defined.

Inductive event : Type :=
  | Callback (n : notification)
      (** [self.callbacks[key](...)] *)
  | YdlEnter (opts : gmap string optvalue) (urls : list string)
      (** [with yt_dlp.YoutubeDL(opts) as ydl: ydl.download(urls)] entered *)
  | YdlLeave (raised : option exn)
      (** ... and left, normally or by an exception *)
  | Sleep (seconds : Z)
  | SubprocessRun (cmd : list string)
  | OsRemove (path : string).

Definition is_terminal_event (e : event) : bool :=
  match e with
  | Callback n => is_terminal n
  | _ => false
  end.

(** The step of the conditional transcode: settling delay, probe,
    conversion, removal of the source. *)
Definition is_transcode_event (e : event) : bool :=
  match e with
  | Sleep _ | SubprocessRun _ | OsRemove _ => true
  | _ => false
  end.

(** ** The collaborators *)

(** The four methods of the logger object yt-dlp is given. *)
Inductive level : Type := Debug | Info | Warning | Error.

(** What [ydl.download] does, seen from the orchestrator: it returns,
    raises, calls the progress hooks with a payload (and goes on according
    to what the hook did: [None] when it returned, the exception when it
    raised), or calls a method of the logger. The tree is finite: the
    download call comes back. *)
Inductive ydl_run : Type :=
  | YReturn
  | YRaise (e : exn)
  | YProgress (d : gmap string value) (k : option exn -> ydl_run)
  | YLog (lvl : level) (msg : string) (k : ydl_run).

(** What a child process started by [subprocess.run] does. *)
Inductive proc_outcome : Type :=
  | Exited (status : N) (stdout stderr : string)
  | Signalled (signal_repr : string) (stdout stderr : string)
      (** killed by a signal; [signal_repr] is [repr(signal.Signals(n))] *)
  | NotStarted (strerror : string)
      (** the program could not be started: an [OSError] *).

Record world : Type := World {
  ydl_download : gmap string optvalue -> list string -> ydl_run;
  run_process : list string -> proc_outcome;
  remove_file : string -> option string
    (** [None]: removed; [Some msg]: [os.remove] raises [OSError(msg)] *)
}.

(** ** The downloader object and the monad of its methods *)

(** [self] of [YtDlpDownloader]. The bag of callbacks is known by its keys:
    the functions themselves belong to the notification channel, they are
    observed through the [Callback] events and return to the caller (in the
    GUI they are the [emit] of Qt signals). [downloaded_file] is assigned
    by [download_video] before anything reads it. *)
Record YtDlpDownloader : Type := Downloader {
  callbacks : gset string;
  downloaded_file : value
}.

(** [YtDlpDownloader.__init__] *)
Definition init (callback_functions : option (gset string)) : YtDlpDownloader :=
  {| callbacks := default ∅ callback_functions; downloaded_file := VNone |}.

Record outcome (A : Type) : Type := Outcome {
  result : exn + A;
  self_after : YtDlpDownloader;
  events : list event
}.
Arguments Outcome {A} _ _ _.
Arguments result {A} _.
Arguments self_after {A} _.
Arguments events {A} _.

Definition M (A : Type) : Type := YtDlpDownloader -> outcome A.

#[global] Instance M_ret : MRet M := λ A (a : A) self, Outcome (inr a) self [].

#[global] Instance M_bind : MBind M := λ A B (f : A -> M B) (m : M A) self,
  let o := m self in
  match result o with
  | inl e => Outcome (inl e) (self_after o) (events o)
  | inr a =>
      let o' := f a (self_after o) in
      Outcome (result o') (self_after o') (events o ++ events o')
  end.

Definition raise {A : Type} (e : exn) : M A := λ self, Outcome (inl e) self [].

Definition emit (e : event) : M unit := λ self, Outcome (inr tt) self [e].

Definition lift {A : Type} (r : exn + A) : M A :=
  match r with inl e => raise e | inr a => mret a end.

(** [try: body  except <class> as e: handler e]; an exception the clause
    does not name goes on to the caller. *)
Definition try_except {A : Type} (body : M A) (catches : exn -> bool)
    (handler : exn -> M A) : M A := λ self,
  let o := body self in
  match result o with
  | inl e =>
      if catches e then
        let o' := handler e (self_after o) in
        Outcome (result o') (self_after o') (events o ++ events o')
      else o
  | inr _ => o
  end.

(** [except Exception] and the bare [except]: every class of [exn_class]. *)
Definition any_exception (e : exn) : bool := true.

(** Run [m] and hand what it raised to the caller as a value: the view a
    library has of a callback it invoked. *)
Definition attempt (m : M unit) : M (option exn) := λ self,
  let o := m self in
  Outcome (inr (match result o with inl e => Some e | inr _ => None end))
          (self_after o) (events o).

Definition get_downloaded_file : M value := λ self,
  Outcome (inr (downloaded_file self)) self [].

Definition set_downloaded_file (v : value) : M unit := λ self,
  Outcome (inr tt) {| callbacks := callbacks self; downloaded_file := v |} [].

(** [pass] *)
Definition pass : M unit := mret tt.

(** ** [YtDlpDownloader]: the notification methods *)

(** [if key in self.callbacks: self.callbacks[key](...)] *)
Definition notify (n : notification) : M unit := λ self,
  if decide (callback_key n ∈ callbacks self)
  then emit (Callback n) self
  else pass self.

Definition log_message (message : string) : M unit :=
  notify (LogMessage message).

Definition update_progress (status : string)
    (data : option (gmap string value)) : M unit :=
  notify (UpdateProgress status data).

Definition on_complete : M unit := notify OnComplete.

Definition on_error (error_msg : string) : M unit :=
  notify (OnError error_msg).

(** ** [CustomLogger] *)

Module CustomLogger.

Definition info (msg : string) : M unit := log_message msg.

Definition debug (msg : string) : M unit :=
  if negb (startswith msg "[debug] ") then info msg else pass.

Definition warning (msg : string) : M unit :=
  log_message ("Warning: " +:+ msg).

Definition error (msg : string) : M unit :=
  log_message ("Error: " +:+ msg).

(** The method yt-dlp calls for a line of the given level. *)
Definition call (lvl : level) (msg : string) : M unit :=
  match lvl with
  | Debug => debug msg
  | Info => info msg
  | Warning => warning msg
  | Error => error msg
  end.

End CustomLogger.

(** ** [YtDlpDownloader.progress_hook] *)

(** [d[key]] *)
Definition getitem (d : gmap string value) (key : string) : M value :=
  match d !! key with
  | Some v => mret v
  | None => raise (Exn KeyError (repr_str key))
  end.

(** [d.get(key, dflt)] *)
Definition get (d : gmap string value) (key : string) (dflt : value) : value :=
  default dflt (d !! key).

Definition progress_hook (d : gmap string value) : M unit :=
  status ← getitem d "status";
  if decide (status = VStr "downloading") then
    try_except
      (let percent := get d "_percent_str" (VStr "N/A") in
       let speed := get d "_speed_str" (VStr "N/A") in
       let eta := get d "_eta_str" (VStr "N/A") in
       let progress_data : gmap string value :=
         <["eta" := eta]> (<["speed" := speed]> (<["percent" := percent]> ∅)) in
       update_progress "downloading" (Some progress_data))
      any_exception
      (λ _, pass)
  else
    status ← getitem d "status";
    if decide (status = VStr "finished") then
      let filename := get d "filename" (VStr "Unknown") in
      set_downloaded_file filename;;
      name ← lift (basename filename);
      log_message ("Download finished: " +:+ name);;
      update_progress "processing" None
    else pass.

(** ** The external calls *)

(** [ydl.download]: the library runs and calls back into the hook and the
    logger of the option dict. *)
Fixpoint ydl_call (y : ydl_run) : M unit :=
  match y with
  | YReturn => pass
  | YRaise e => raise e
  | YProgress d k => r ← attempt (progress_hook d); ydl_call (k r)
  | YLog lvl msg k => CustomLogger.call lvl msg;; ydl_call k
  end.

Definition ydl_download_urls (w : world) (opts : gmap string optvalue)
    (urls : list string) : M unit :=
  emit (YdlEnter opts urls);;
  r ← attempt (ydl_call (ydl_download w opts urls));
  emit (YdlLeave r);;
  match r with
  | Some e => raise e
  | None => pass
  end.

(** [str(e)] of the [CalledProcessError] that [check=True] raises. *)
Definition called_process_error (cmd : list string) (how : string) : exn :=
  Exn CalledProcessError ("Command '" +:+ repr_list cmd +:+ "' " +:+ how +:+ ".").

(** What [subprocess.run(cmd, check=..., stdout=PIPE, stderr=PIPE)] gives
    for a child that behaved as [o]: the captured [stdout] (the one field
    the code reads) or an exception. The captured [stderr] stays in the
    attribute of the result or of the exception; it is no part of [str(e)]. *)
Definition completed (cmd : list string) (check : bool) (o : proc_outcome)
    : exn + string :=
  match o with
  | NotStarted msg => inl (Exn OSError msg)
  | Exited status stdout _ =>
      if check && negb (status =? 0)%N
      then inl (called_process_error cmd
                  ("returned non-zero exit status " +:+ pretty status))
      else inr stdout
  | Signalled sig stdout _ =>
      if check
      then inl (called_process_error cmd ("died with " +:+ sig))
      else inr stdout
  end.

Definition subprocess_run (w : world) (cmd : list string) (check : bool)
    : M string :=
  emit (SubprocessRun cmd);;
  lift (completed cmd check (run_process w cmd)).

(** [os.remove(path)] *)
Definition os_remove (w : world) (path : string) : M unit :=
  emit (OsRemove path);;
  match remove_file w path with
  | Some msg => raise (Exn OSError msg)
  | None => pass
  end.

(** [time.sleep(seconds)] *)
Definition sleep (seconds : Z) : M unit := emit (Sleep seconds).

(** ** [YtDlpDownloader.download_video] *)

(** [d.update(new)]: the keys of [new] win. *)
Definition update (d new : gmap string optvalue) : gmap string optvalue :=
  new ∪ d.

(** [d.get('postprocessors', [])]; the key only ever holds a list. *)
Definition get_postprocessors (d : gmap string optvalue)
    : list (gmap string string) :=
  match d !! "postprocessors" with
  | Some (OPostprocessors pps) => pps
  | _ => []
  end.

Definition FFmpegExtractAudio : gmap string string :=
  {[ "key" := "FFmpegExtractAudio";
     "preferredcodec" := "mp3";
     "preferredquality" := "192" ]}.

Definition FFmpegThumbnailsConvertor : gmap string string :=
  {[ "key" := "FFmpegThumbnailsConvertor"; "format" := "jpg" ]}.

(** The option dict built in the first part of [download_video]. *)
Definition ydl_opts (output_dir selected_format : string)
    (with_subtitles with_thumbnail : bool) : gmap string optvalue :=
  let opts : gmap string optvalue :=
    {[ "outtmpl" := OStr (join output_dir "%(title)s.%(ext)s");
       "logger" := OCustomLogger;
       "progress_hooks" := OHooks [self_progress_hook];
       "quiet" := OBool true ]} in
  let opts :=
    if decide (selected_format = "mp3") then
      update opts
        {[ "format" := OStr "bestaudio/best";
           "postprocessors" := OPostprocessors [FFmpegExtractAudio] ]}
    else if decide (selected_format = "mp4") then
      update opts
        {[ "format" :=
             OStr "bestvideo[ext=mp4]+bestaudio[ext=m4a]/best[ext=mp4]/best" ]}
    else if decide (selected_format = "webm") then
      update opts
        {[ "format" :=
             OStr "bestvideo[ext=webm]+bestaudio[ext=webm]/best[ext=webm]/best" ]}
    else opts in
  let opts :=
    if with_subtitles then
      update opts
        {[ "writesubtitles" := OBool true; "writeautomaticsub" := OBool true ]}
    else opts in
  if with_thumbnail then
    let postprocessors := get_postprocessors opts ++ [FFmpegThumbnailsConvertor] in
    update opts
      {[ "writethumbnail" := OBool true;
         "postprocessors" := OPostprocessors postprocessors ]}
  else opts.

(** The probe: is there a video stream in [file]? *)
Definition ffprobe_cmd (file : string) : list string :=
  [ "ffprobe"; "-v"; "error"; "-select_streams"; "v:0";
    "-show_entries"; "stream=codec_type"; "-of"; "csv=p=0"; file ].

(** The conversion command, by the presence of a video stream. *)
Definition ffmpeg_cmd (has_video : bool) (file mp4_file : string) : list string :=
  if has_video then
    [ "ffmpeg"; "-y"; "-i"; file;
      "-c:v"; "libx264"; "-preset"; "ultrafast";
      "-c:a"; "copy"; mp4_file ]
  else
    [ "ffmpeg"; "-y"; "-i"; file; "-vn"; "-c:a"; "copy"; mp4_file ].

(** How a block ends: it falls through to the statement after it, or it
    executes [return]. *)
Inductive flow : Type := Next | Return.

(** The body of [if selected_format == 'best' and convert_to_mp4 and
    self.downloaded_file:]. [os.path.splitext] raises [TypeError] unless
    the recorded value is a string. *)
Definition convert_step (w : world) (file : value) : M flow :=
  sleep 2;;
  '(base, ext) ← lift (splitext file);
  match file with
  | VStr downloaded =>
      if negb (String.eqb (lower ext) ".mp4") then
        let mp4_file := base +:+ ".mp4" in
        try_except
          (probe_stdout ← subprocess_run w (ffprobe_cmd downloaded) false;
           let has_video := negb (String.eqb (bytes_strip probe_stdout) EmptyString) in
           let cmd := ffmpeg_cmd has_video downloaded mp4_file in
           subprocess_run w cmd true;;
           os_remove w downloaded;;
           log_message ("Converted to mp4: " +:+ basename_str mp4_file);;
           mret Next)
          is_SubprocessError
          (λ e, on_error ("ffmpeg conversion failed: " +:+ exn_str e);;
                mret Return)
      else mret Next
  | _ => raise (not_a_path file)
  end.

Definition download_video (w : world) (url output_dir selected_format : string)
    (with_subtitles with_thumbnail convert_to_mp4 : bool) : M unit :=
  let opts := ydl_opts output_dir selected_format with_subtitles with_thumbnail in
  try_except
    (log_message ("Starting download of " +:+ url);;
     set_downloaded_file VNone;;
     ydl_download_urls w opts [url];;
     file ← get_downloaded_file;
     fl ← (if bool_decide (selected_format = "best") && convert_to_mp4 && truthy file
           then convert_step w file
           else mret Next);
     match fl with
     | Return => pass
     | Next => on_complete
     end)
    any_exception
    (λ e, on_error (exn_str e)).

(** [YtDlpDownloader.start_download]: the three flags have the default
    [False]; an argument the caller leaves out is [None] here. The body runs
    [download_video] on a thread of its own; the model follows that thread. *)
Definition start_download (w : world) (url output_dir selected_format : string)
    (with_subtitles with_thumbnail convert_to_mp4 : option bool) : M unit :=
  download_video w url output_dir selected_format
    (default false with_subtitles) (default false with_thumbnail)
    (default false convert_to_mp4).

(** The events of a run of [m] on the downloader [self]. *)
Definition trace {A : Type} (m : M A) (self : YtDlpDownloader) : list event :=
  events (m self).

(** ** [check_dependencies] *)

(** What starting a program gives: the child was launched (or could not be,
    for a reason other than a missing program), or the program was not
    found and [subprocess.run] raises [FileNotFoundError]. *)
Inductive launch : Type :=
  | Launched (o : proc_outcome)
  | NotFound (strerror : string).

(** The machine the program starts on: can [yt_dlp] be imported, and what
    does [ffmpeg -version] do. *)
Record host : Type := Host {
  yt_dlp_importable : bool;
  ffmpeg_version : launch
}.

(** The value of [check_dependencies]: [True], or the pair
    [(False, message)]. *)
Inductive dependencies : Type :=
  | AllThere
  | Missing (message : string).

Definition check_dependencies (h : host) : exn + dependencies :=
  if negb (yt_dlp_importable h) then
    inr (Missing "yt-dlp is not installed. Please install it with 'pip install yt-dlp'")
  else
    match ffmpeg_version h with
    | NotFound _ =>
        inr (Missing "FFmpeg is not installed. Please install it with 'brew install ffmpeg'")
    | Launched o =>
        match completed ["ffmpeg"; "-version"] true o with
        | inl e =>
            if is_SubprocessError e then
              inr (Missing "FFmpeg is not installed. Please install it with 'brew install ffmpeg'")
            else inl e
        | inr _ => inr AllThere
        end
    end.

(** ** [gui.py]: the window, its slots and the start action *)

Module Gui.

Inductive box_kind : Type := Information | Warning | Critical.

(** A [QMessageBox] shown to the user: kind, title, text. *)
Record message_box : Type := MessageBox {
  box : box_kind; title : string; text : string
}.

(** The widgets of [YtDlpGui], each by the part of its state the code
    reads or writes, and the downloader object the window owns. *)
Record YtDlpGui : Type := Window {
  downloader : YtDlpDownloader;
  url_entry : string;
  format_combo : string;
  output_dir_entry : string;
  subtitles_check : bool;
  thumbnail_check : bool;
  progress_bar_shown : bool;
  status_label : string;
  log_text : list string;
  boxes : list message_box
}.

(** The bag [YtDlpGui.__init__] hands to the downloader: one signal's
    [emit] under each of the four keys. *)
Definition signals : gset string :=
  {[ "log_message"; "update_progress"; "on_complete"; "on_error" ]}.

(** The window as [__init__] and [init_ui] leave it. *)
Definition new : YtDlpGui :=
  {| downloader := init (Some signals);
     url_entry := EmptyString;
     format_combo := "best";
     output_dir_entry := "/Users/jeffhaskin/youtube";
     subtitles_check := false;
     thumbnail_check := false;
     progress_bar_shown := false;
     status_label := "Ready";
     log_text := [];
     boxes := [] |}.

Definition set_progress (g : YtDlpGui) (shown : bool) (label : string) : YtDlpGui :=
  {| downloader := downloader g; url_entry := url_entry g;
     format_combo := format_combo g; output_dir_entry := output_dir_entry g;
     subtitles_check := subtitles_check g; thumbnail_check := thumbnail_check g;
     progress_bar_shown := shown; status_label := label;
     log_text := log_text g; boxes := boxes g |}.

Definition show_box (g : YtDlpGui) (b : message_box) : YtDlpGui :=
  {| downloader := downloader g; url_entry := url_entry g;
     format_combo := format_combo g; output_dir_entry := output_dir_entry g;
     subtitles_check := subtitles_check g; thumbnail_check := thumbnail_check g;
     progress_bar_shown := progress_bar_shown g; status_label := status_label g;
     log_text := log_text g; boxes := boxes g ++ [b] |}.

(** [YtDlpGui.log_message] *)
Definition log_message (g : YtDlpGui) (message : string) : YtDlpGui :=
  {| downloader := downloader g; url_entry := url_entry g;
     format_combo := format_combo g; output_dir_entry := output_dir_entry g;
     subtitles_check := subtitles_check g; thumbnail_check := thumbnail_check g;
     progress_bar_shown := progress_bar_shown g; status_label := status_label g;
     log_text := log_text g ++ [message]; boxes := boxes g |}.

(** [YtDlpGui.update_progress]; [data[key]] raises [KeyError] for a key
    the dict lacks. *)
Definition update_progress (g : YtDlpGui) (status : string)
    (data : option (gmap string value)) : exn + YtDlpGui :=
  match data with
  | Some d =>
      if bool_decide (status = "downloading") && negb (bool_decide (d = ∅)) then
        match d !! "percent", d !! "speed", d !! "eta" with
        | Some percent, Some speed, Some eta =>
            inr (set_progress g true
                   ("Downloading: " +:+ str percent +:+ " at " +:+ str speed
                    +:+ ", ETA: " +:+ str eta))
        | None, _, _ => inl (Exn KeyError (repr_str "percent"))
        | _, None, _ => inl (Exn KeyError (repr_str "speed"))
        | _, _, None => inl (Exn KeyError (repr_str "eta"))
        end
      else if bool_decide (status = "processing")
      then inr (set_progress g true "Post-processing...")
      else inr g
  | None =>
      if bool_decide (status = "processing")
      then inr (set_progress g true "Post-processing...")
      else inr g
  end.

(** [YtDlpGui.download_complete] *)
Definition download_complete (g : YtDlpGui) : YtDlpGui :=
  show_box (set_progress g false "Download complete!")
    (MessageBox Information "Success" "Download completed successfully!").

(** [YtDlpGui.download_error] *)
Definition download_error (g : YtDlpGui) (error_msg : string) : YtDlpGui :=
  show_box (log_message (set_progress g false "Error occurred")
                        ("Error: " +:+ error_msg))
    (MessageBox Critical "Error" ("Download failed: " +:+ error_msg)).

(** What [YtDlpGui.start_download] leaves: the window, and the run of the
    worker it started, if it started one. *)
Record started : Type := Started {
  window : YtDlpGui;
  worker : option (outcome unit)
}.

(** [YtDlpGui.start_download]: five arguments go to the downloader's
    [start_download], [convert_to_mp4] is not among them. *)
Definition start_download (w : world) (g : YtDlpGui) : started :=
  let url := str_strip (url_entry g) in
  if negb (truthy (VStr url)) then
    Started (show_box g (MessageBox Warning "Error" "Please enter a URL")) None
  else
    let g := set_progress g true "Downloading..." in
    let output_dir := output_dir_entry g in
    let selected_format := format_combo g in
    let with_subtitles := subtitles_check g in
    let with_thumbnail := thumbnail_check g in
    Started g
      (Some (start_download w url output_dir selected_format
               (Some with_subtitles) (Some with_thumbnail) None
               (downloader g))).


(** [YtDlpGui.browse_directory], with the directory the dialog returns
    (the empty string when the user cancels). *)
Definition browse_directory (g : YtDlpGui) (directory : string) : YtDlpGui :=
  if truthy (VStr directory) then
    {| downloader := downloader g; url_entry := url_entry g;
       format_combo := format_combo g; output_dir_entry := directory;
       subtitles_check := subtitles_check g; thumbnail_check := thumbnail_check g;
       progress_bar_shown := progress_bar_shown g; status_label := status_label g;
       log_text := log_text g; boxes := boxes g |}
  else g.

(** [YtDlpGui.clear_fields] *)
Definition clear_fields (g : YtDlpGui) : YtDlpGui :=
  {| downloader := downloader g; url_entry := EmptyString;
     format_combo := format_combo g; output_dir_entry := output_dir_entry g;
     subtitles_check := subtitles_check g; thumbnail_check := thumbnail_check g;
     progress_bar_shown := false; status_label := "Ready";
     log_text := []; boxes := boxes g |}.

(** How [main] leaves: [show_dependency_error] showed its box and called
    [sys.exit] with the status; or the window was created and shown and the
    event loop runs; or an exception nobody catches ended the program. *)
Inductive startup : Type :=
  | Refused (shown : message_box) (status : Z)
  | Shown (window : YtDlpGui)
  | Uncaught (e : exn).

(** [show_dependency_error] *)
Definition show_dependency_error (message : string) : startup :=
  Refused (MessageBox Critical "Missing Dependency" message) 1.

(** [main] *)
Definition main (h : host) : startup :=
  match check_dependencies h with
  | inl e => Uncaught e
  | inr AllThere => Shown new
  | inr (Missing error_message) => show_dependency_error error_message
  end.

(** The script [gui.py] from its first line: [from main import ...] runs
    the top level of [main.py], whose [import yt_dlp] raises [ImportError]
    when the library is not there; [None] stands for that end. Otherwise
    [main()] is called. *)
Definition run_script (h : host) : option startup :=
  if yt_dlp_importable h then Some (main h) else None.

(** The connections made in [__init__]: each signal of the bag runs its
    slot, on the thread of the window, in the order of emission. *)
Definition slot (g : YtDlpGui) (n : notification) : exn + YtDlpGui :=
  match n with
  | LogMessage message => inr (log_message g message)
  | UpdateProgress status data => update_progress g status data
  | OnComplete => inr (download_complete g)
  | OnError error_msg => inr (download_error g error_msg)
  end.

Fixpoint dispatch (g : YtDlpGui) (tr : list event) : exn + YtDlpGui :=
  match tr with
  | [] => inr g
  | Callback n :: rest =>
      match slot g n with
      | inr g' => dispatch g' rest
      | inl e => inl e
      end
  | _ :: rest => dispatch g rest
  end.

End Gui.

(** * The vocabulary of the properties *)

(** What a notification leaves in the trace: the call of the function
    registered under its key, or nothing when the bag lacks the key. *)
Definition deliver (cbs : gset string) (n : notification) : list event :=
  if decide (callback_key n ∈ cbs) then [Callback n] else [].

(** [keeps P m]: whatever the downloader object, [m] leaves its bag of
    callbacks as it is and every event of the run satisfies [P]. *)
Definition keeps {A : Type} (P : event -> Prop) (m : M A) : Prop :=
  forall self,
    callbacks (self_after (m self)) = callbacks self /\
    Forall P (events (m self)).

(** The downloader object once [download_video] has reset the recorded
    file. *)
Definition reset (self : YtDlpDownloader) : YtDlpDownloader :=
  {| callbacks := callbacks self; downloaded_file := VNone |}.

(** The events the hook and the logger can produce. *)
Definition is_hook_event (e : event) : Prop :=
  match e with
  | Callback (LogMessage _) | Callback (UpdateProgress _ _) => True
  | _ => False
  end.

(** What the last statement of the request notifies, by the way the
    transcode block ended. *)
Definition closing (r : exn + flow) : option notification :=
  match r with
  | inl e => Some (OnError (exn_str e))
  | inr Return => None
  | inr Next => Some OnComplete
  end.

(** The terminal notifications of a trace, in order. *)
Fixpoint terminal_outcomes (tr : list event) : list notification :=
  match tr with
  | [] => []
  | Callback n :: rest =>
      if is_terminal n then n :: terminal_outcomes rest else terminal_outcomes rest
  | _ :: rest => terminal_outcomes rest
  end.

(** The events before the download call returns: the callbacks of the hook
    and of the logger, and the entry of the call. *)
Definition is_started_event (e : event) : bool :=
  match e with
  | Callback (LogMessage _) | Callback (UpdateProgress _ _) => true
  | YdlEnter _ _ => true
  | _ => false
  end.

(** The events of the transcode block: its external calls, the log line
    of a conversion, the failure it reports. *)
Definition is_block_event (e : event) : bool :=
  match e with
  | Sleep _ | SubprocessRun _ | OsRemove _ => true
  | Callback (LogMessage _) | Callback (OnError _) => true
  | _ => false
  end.

(** ** A request, concretely *)

Module Scenario.

(** What the downloader does for one video: two lines through [debug], one
    of them marked, a progress payload, and the payload of the finished
    file. *)
Definition one_video (filename : string) : ydl_run :=
  YLog Debug "[debug] Command-line config: []"
    (YLog Debug "[youtube] Extracting URL: https://example/video"
       (YProgress {[ "status" := VStr "downloading";
                     "_percent_str" := VStr " 50.0%";
                     "_speed_str" := VStr "1.00MiB/s" ]}
          (fun _ =>
             YProgress {[ "status" := VStr "finished";
                          "filename" := VStr filename ]}
               (fun _ => YReturn)))).

(** A world in which the download leaves [filename], the probe prints
    [probe_out], ffmpeg ends as [ffmpeg] and files can be removed. *)
Definition world_of (filename probe_out : string) (ffmpeg : proc_outcome) : world :=
  {| ydl_download := fun _ _ => one_video filename;
     run_process := fun cmd =>
       match cmd with
       | "ffprobe" :: _ => Exited 0 probe_out EmptyString
       | _ => ffmpeg
       end;
     remove_file := fun _ => None |}.

(** The downloader of the window. *)
Definition gui_downloader : YtDlpDownloader := init (Some Gui.signals).

(** A request for the best format with the conversion asked for. *)
Definition convert_request (w : world) : outcome unit :=
  download_video w "https://example/video" "/tmp/out" "best" false false true
    gui_downloader.

(** What ffmpeg prints when it gives up on a file. *)
Definition ffmpeg_diagnostic : string :=
  "/tmp/out/clip.webm: Invalid data found when processing input".

(** The window with a URL typed in. *)
Definition window : Gui.YtDlpGui :=
  {| Gui.downloader := gui_downloader;
     Gui.url_entry := " https://example/video ";
     Gui.format_combo := "best";
     Gui.output_dir_entry := "/tmp/out";
     Gui.subtitles_check := false;
     Gui.thumbnail_check := false;
     Gui.progress_bar_shown := false;
     Gui.status_label := "Ready";
     Gui.log_text := [];
     Gui.boxes := [] |}.

End Scenario.

(** The claim of C4 on failure, as it is worded: some failure notified in
    the trace holds the text that was captured from the child. *)
Definition reports_captured_diagnostic (tr : list event) (captured : string) : Prop :=
  exists msg, Callback (OnError msg) ∈ tr /\ contains msg captured = true.

(** The claim of C2 on the progress event, as it is worded: a progress
    update that says [finished] is among the events. *)
Definition emits_finished_event (tr : list event) : Prop :=
  exists data, Callback (UpdateProgress "finished" data) ∈ tr.


(** ** Other situations *)

Module Situation.

(** The downloader refuses the URL. *)
Definition unsupported_url : world :=
  {| ydl_download := fun _ _ =>
       YLog Error "ERROR: Unsupported URL: https://example/video"
         (YRaise (Exn OtherException "ERROR: Unsupported URL: https://example/video"));
     run_process := fun _ => Exited 0 EmptyString EmptyString;
     remove_file := fun _ => None |}.

(** The download leaves [clip.webm]; no program can be started. *)
Definition no_programs : world :=
  {| ydl_download := fun _ _ => Scenario.one_video "/tmp/out/clip.webm";
     run_process := fun cmd =>
       NotStarted "[Errno 2] No such file or directory: 'ffprobe'";
     remove_file := fun _ => None |}.

(** The download call reports progress and returns without a finished
    payload. *)
Definition nothing_finished : world :=
  {| ydl_download := fun _ _ =>
       YProgress {[ "status" := VStr "downloading" ]} (fun _ => YReturn);
     run_process := fun _ => Exited 0 EmptyString EmptyString;
     remove_file := fun _ => None |}.



Definition no_ffmpeg : host :=
  {| yt_dlp_importable := true;
     ffmpeg_version := NotFound "[Errno 2] No such file or directory: 'ffmpeg'" |}.

Definition locked_ffmpeg : host :=
  {| yt_dlp_importable := true;
     ffmpeg_version := Launched (NotStarted "[Errno 13] Permission denied: 'ffmpeg'") |}.

Definition no_yt_dlp : host :=
  {| yt_dlp_importable := false;
     ffmpeg_version := Launched (Exited 0 "ffmpeg version 6.0" EmptyString) |}.


End Situation.

(** ** For the properties of the rest of the code *)

(** Is the function for the event in the bag [cbs]? Events that are no
    callbacks pass. *)
Definition allowed (cbs : gset string) (e : event) : bool :=
  match e with
  | Callback n => bool_decide (callback_key n ∈ cbs)
  | _ => true
  end.

(** What a bag [cbs] sees of a trace. *)
Definition observe (cbs : gset string) (tr : list event) : list event :=
  List.filter (allowed cbs) tr.

(** The events that are no callbacks: what the request does outside the
    program. *)
Definition is_external_call (e : event) : bool :=
  match e with
  | Callback _ => false
  | _ => true
  end.

(** Does the payload report a finished file? *)
Definition reports_finished (d : gmap string value) : bool :=
  bool_decide (d !! "status" = Some (VStr "finished")).

(** A download call that never reports a finished file, whatever the
    hook answers. *)
Fixpoint no_finished (y : ydl_run) : Prop :=
  match y with
  | YReturn | YRaise _ => True
  | YProgress d k => reports_finished d = false /\ forall r, no_finished (k r)
  | YLog _ _ k => no_finished k
  end.


(** The lines the window appends to its log for a trace: a log message as
    it is, a failure behind ["Error: "]. *)
Fixpoint log_lines (tr : list event) : list string :=
  match tr with
  | [] => []
  | Callback (LogMessage message) :: rest => message :: log_lines rest
  | Callback (OnError error_msg) :: rest => ("Error: " +:+ error_msg) :: log_lines rest
  | _ :: rest => log_lines rest
  end.

(** The progress updates the hook makes: [processing] without data, or
    [downloading] with a dict that has the three keys the window reads. *)
Definition hook_progress (status : string) (data : option (gmap string value)) : Prop :=
  (status = "processing" /\ data = None) \/
  (status = "downloading" /\
   exists d, data = Some d /\
             is_Some (d !! "percent") /\ is_Some (d !! "speed") /\ is_Some (d !! "eta")).

(** The events of a request as the window can take them. *)
Definition slot_safe (e : event) : Prop :=
  match e with
  | Callback (UpdateProgress status data) => hook_progress status data
  | _ => True
  end.

(** [unaffected m]: the bag of callbacks decides what is delivered and
    nothing else. Two downloader objects with the same recorded file, the
    bag of the first within that of the second, run [m] to the same result
    and the same recorded file, each keeps its bag, and the events of the
    first are those of the second that its bag lets through. *)
Definition unaffected {A : Type} (m : M A) : Prop :=
  forall s1 s2,
    downloaded_file s1 = downloaded_file s2 ->
    callbacks s1 ⊆ callbacks s2 ->
    result (m s1) = result (m s2) /\
    downloaded_file (self_after (m s1)) = downloaded_file (self_after (m s2)) /\
    callbacks (self_after (m s1)) = callbacks s1 /\
    callbacks (self_after (m s2)) = callbacks s2 /\
    events (m s1) = observe (callbacks s1) (events (m s2)).

(** The widgets the user sets and the downloader object: what the slots
    leave alone. *)
Definition inputs (g : Gui.YtDlpGui)
    : YtDlpDownloader * string * string * string * bool * bool :=
  (Gui.downloader g, Gui.url_entry g, Gui.format_combo g, Gui.output_dir_entry g,
   Gui.subtitles_check g, Gui.thumbnail_check g).

(** * Properties *)

(** ** Running the monad *)

Lemma notify_run (n : notification) (self : YtDlpDownloader) :
  notify n self = Outcome (inr tt) self (deliver (callbacks self) n).
Proof.
  unfold notify, deliver. destruct (decide _); reflexivity.
Qed.

Lemma deliver_registered (cbs : gset string) (n : notification) :
  callback_key n ∈ cbs -> deliver cbs n = [Callback n].
Proof. intros Hin. unfold deliver. rewrite decide_True; auto. Qed.

Lemma bind_run {A B : Type} (m : M A) (f : A -> M B) (self : YtDlpDownloader) :
  (m ≫= f) self =
  match result (m self) with
  | inl e => Outcome (inl e) (self_after (m self)) (events (m self))
  | inr a =>
      Outcome (result (f a (self_after (m self))))
              (self_after (f a (self_after (m self))))
              (events (m self) ++ events (f a (self_after (m self))))
  end.
Proof. reflexivity. Qed.

Lemma try_except_run {A : Type} (body : M A) (catches : exn -> bool)
    (handler : exn -> M A) (self : YtDlpDownloader) :
  try_except body catches handler self =
  match result (body self) with
  | inl e =>
      if catches e then
        Outcome (result (handler e (self_after (body self))))
                (self_after (handler e (self_after (body self))))
                (events (body self) ++ events (handler e (self_after (body self))))
      else body self
  | inr _ => body self
  end.
Proof. reflexivity. Qed.

(** ** An invariant of runs *)

Section Keeps.
Context (P : event -> Prop).

Lemma keeps_ret {A : Type} (a : A) : keeps P (mret a).
Proof. intros self. split; [reflexivity | constructor]. Qed.

Lemma keeps_pass : keeps P pass.
Proof. apply keeps_ret. Qed.

Lemma keeps_raise {A : Type} (e : exn) : keeps P (@raise A e).
Proof. intros self. split; [reflexivity | constructor]. Qed.

Lemma keeps_lift {A : Type} (r : exn + A) : keeps P (lift r).
Proof. destruct r; [apply keeps_raise | apply keeps_ret]. Qed.

Lemma keeps_emit (e : event) : P e -> keeps P (emit e).
Proof. intros He self. split; [reflexivity | repeat constructor; exact He]. Qed.

Lemma keeps_bind {A B : Type} (m : M A) (f : A -> M B) :
  keeps P m -> (forall a, keeps P (f a)) -> keeps P (m ≫= f).
Proof.
  intros Hm Hf self. rewrite bind_run.
  destruct (Hm self) as [Hc He].
  destruct (result (m self)) as [e | a]; simpl; [split; assumption |].
  destruct (Hf a (self_after (m self))) as [Hc' He'].
  split; [congruence | apply Forall_app; split; assumption].
Qed.

Lemma keeps_try_except {A : Type} (body : M A) (catches : exn -> bool)
    (handler : exn -> M A) :
  keeps P body -> (forall e, keeps P (handler e)) ->
  keeps P (try_except body catches handler).
Proof.
  intros Hb Hh self. rewrite try_except_run.
  destruct (Hb self) as [Hc He].
  destruct (result (body self)) as [e | a]; [| split; assumption].
  destruct (catches e); [| split; assumption].
  destruct (Hh e (self_after (body self))) as [Hc' He'].
  simpl. split; [congruence | apply Forall_app; split; assumption].
Qed.

Lemma keeps_attempt (m : M unit) : keeps P m -> keeps P (attempt m).
Proof. intros Hm self. exact (Hm self). Qed.

Lemma keeps_get_downloaded_file : keeps P get_downloaded_file.
Proof. intros self. split; [reflexivity | constructor]. Qed.

Lemma keeps_set_downloaded_file (v : value) : keeps P (set_downloaded_file v).
Proof. intros self. split; [reflexivity | constructor]. Qed.

Lemma keeps_notify (n : notification) : P (Callback n) -> keeps P (notify n).
Proof.
  intros Hn self. rewrite notify_run. simpl. split; [reflexivity |].
  unfold deliver. destruct (decide _); repeat constructor. exact Hn.
Qed.

(** The hook and the logger only ever notify with log lines and progress
    updates: an invariant that holds of those holds of the whole
    download call. *)
Hypothesis P_log : forall message, P (Callback (LogMessage message)).
Hypothesis P_progress : forall status data, P (Callback (UpdateProgress status data)).

Lemma keeps_log_message (message : string) : keeps P (log_message message).
Proof. apply keeps_notify, P_log. Qed.

Lemma keeps_update_progress (status : string) (data : option (gmap string value)) :
  keeps P (update_progress status data).
Proof. apply keeps_notify, P_progress. Qed.

Lemma keeps_logger (lvl : level) (msg : string) : keeps P (CustomLogger.call lvl msg).
Proof.
  destruct lvl; simpl; unfold CustomLogger.debug, CustomLogger.info,
    CustomLogger.warning, CustomLogger.error;
    try destruct (negb _); auto using keeps_log_message, keeps_pass.
Qed.

Lemma keeps_getitem (d : gmap string value) (key : string) : keeps P (getitem d key).
Proof. unfold getitem. destruct (d !! key); [apply keeps_ret | apply keeps_raise]. Qed.

Lemma keeps_progress_hook (d : gmap string value) : keeps P (progress_hook d).
Proof.
  unfold progress_hook.
  apply keeps_bind; [apply keeps_getitem | intros status].
  destruct (decide _).
  - apply keeps_try_except; [apply keeps_update_progress | intros _; apply keeps_pass].
  - apply keeps_bind; [apply keeps_getitem | intros status'].
    destruct (decide _); [| apply keeps_pass].
    apply keeps_bind; [apply keeps_set_downloaded_file | intros _].
    apply keeps_bind; [apply keeps_lift | intros name].
    apply keeps_bind; [apply keeps_log_message | intros _].
    apply keeps_update_progress.
Qed.

Lemma keeps_ydl_call (y : ydl_run) : keeps P (ydl_call y).
Proof.
  induction y as [| e | d k IH | lvl msg k IH]; simpl.
  - apply keeps_pass.
  - apply keeps_raise.
  - apply keeps_bind; [apply keeps_attempt, keeps_progress_hook | intros r; apply IH].
  - apply keeps_bind; [apply keeps_logger | intros _; apply IH].
Qed.
End Keeps.

(** ** The shape of a run of [download_video] *)

Lemma ydl_call_hook_events (y : ydl_run) : keeps is_hook_event (ydl_call y).
Proof. apply keeps_ydl_call; intros; exact I. Qed.

Lemma ydl_download_urls_run (w : world) (opts : gmap string optvalue)
    (urls : list string) (self : YtDlpDownloader) :
  ydl_download_urls w opts urls self =
  let o := ydl_call (ydl_download w opts urls) self in
  Outcome (match result o with inl e => inl e | inr _ => inr tt end)
          (self_after o)
          (YdlEnter opts urls :: events o ++
           [YdlLeave (match result o with inl e => Some e | inr _ => None end)]).
Proof.
  unfold ydl_download_urls. rewrite !bind_run. simpl.
  destruct (result (ydl_call (ydl_download w opts urls) self)); simpl;
    rewrite ?app_nil_r; reflexivity.
Qed.

(** Two outcomes that differ by the bracketing of their event lists. *)
Ltac same_list :=
  repeat (rewrite <- ?app_assoc, ?app_nil_r; cbn [app]); reflexivity.
Ltac same_events := f_equal; same_list.

Lemma download_video_run (w : world) (url output_dir selected_format : string)
    (with_subtitles with_thumbnail convert_to_mp4 : bool) (self : YtDlpDownloader) :
  download_video w url output_dir selected_format with_subtitles with_thumbnail
                 convert_to_mp4 self =
  let opts := ydl_opts output_dir selected_format with_subtitles with_thumbnail in
  let o := ydl_call (ydl_download w opts [url]) (reset self) in
  let started :=
    deliver (callbacks self) (LogMessage ("Starting download of " +:+ url)) ++
    YdlEnter opts [url] :: events o in
  match result o with
  | inl e =>
      Outcome (inr tt) (self_after o)
        (started ++ YdlLeave (Some e) ::
         deliver (callbacks (self_after o)) (OnError (exn_str e)))
  | inr _ =>
      let file := downloaded_file (self_after o) in
      if bool_decide (selected_format = "best") && convert_to_mp4 && truthy file then
        let o' := convert_step w file (self_after o) in
        Outcome (inr tt) (self_after o')
          (started ++ YdlLeave None :: events o' ++
           from_option (deliver (callbacks (self_after o'))) [] (closing (result o')))
      else
        Outcome (inr tt) (self_after o)
          (started ++ YdlLeave None ::
           deliver (callbacks (self_after o)) OnComplete)
  end.
Proof.
  unfold download_video.
  generalize (ydl_opts output_dir selected_format with_subtitles with_thumbnail).
  intros opts. cbv zeta.
  unfold try_except.
  rewrite bind_run. unfold log_message. rewrite notify_run. cbn [result self_after events].
  rewrite bind_run. cbn [set_downloaded_file result self_after events].
  change {| callbacks := callbacks self; downloaded_file := VNone |} with (reset self).
  rewrite bind_run, ydl_download_urls_run. cbv zeta. cbn [result self_after events].
  set (o := ydl_call (ydl_download w opts [url]) (reset self)).
  destruct (result o) as [e | []]; cbn [result self_after events any_exception app].
  - unfold on_error. rewrite notify_run. cbn [result self_after events].
    same_events.
  - rewrite bind_run. cbn [get_downloaded_file result self_after events app].
    rewrite bind_run.
    destruct (bool_decide (selected_format = "best") && convert_to_mp4 &&
              truthy (downloaded_file (self_after o))).
    + set (o' := convert_step w (downloaded_file (self_after o)) (self_after o)).
      destruct (result o') as [e | [|]]; cbn [result self_after events any_exception app closing from_option].
      * unfold on_error. rewrite notify_run. cbn [result self_after events].
        same_events.
      * unfold on_complete. rewrite notify_run. cbn [result self_after events].
        same_events.
      * same_events.
    + cbn [mret M_ret result self_after events app].
      unfold on_complete. rewrite notify_run. cbn [result self_after events].
      same_events.
Qed.

(** ** The shape of a run of the transcode block *)

Lemma convert_step_not_a_path (w : world) (file : value) (self : YtDlpDownloader) :
  (forall p, file <> VStr p) ->
  convert_step w file self = Outcome (inl (not_a_path file)) self [Sleep 2].
Proof.
  intros Hfile. destruct file; try reflexivity. exfalso. eapply Hfile; reflexivity.
Qed.

Lemma convert_step_run (w : world) (p : string) (self : YtDlpDownloader) :
  convert_step w (VStr p) self =
  let base := fst (splitext_str p) in
  let ext := snd (splitext_str p) in
  let mp4_file := base +:+ ".mp4" in
  if String.eqb (lower ext) ".mp4" then Outcome (inr Next) self [Sleep 2]
  else
    let probe := ffprobe_cmd p in
    match run_process w probe with
    | NotStarted msg =>
        Outcome (inl (Exn OSError msg)) self [Sleep 2; SubprocessRun probe]
    | Exited _ out _ | Signalled _ out _ =>
        let has_video := negb (String.eqb (bytes_strip out) EmptyString) in
        let cmd := ffmpeg_cmd has_video p mp4_file in
        let ran := [Sleep 2; SubprocessRun probe; SubprocessRun cmd] in
        match completed cmd true (run_process w cmd) with
        | inl e =>
            if is_SubprocessError e then
              Outcome (inr Return) self
                (ran ++ deliver (callbacks self)
                          (OnError ("ffmpeg conversion failed: " +:+ exn_str e)))
            else Outcome (inl e) self ran
        | inr _ =>
            match remove_file w p with
            | Some msg => Outcome (inl (Exn OSError msg)) self (ran ++ [OsRemove p])
            | None =>
                Outcome (inr Next) self
                  (ran ++ OsRemove p ::
                   deliver (callbacks self)
                     (LogMessage ("Converted to mp4: " +:+ basename_str mp4_file)))
            end
        end
    end.
Proof.
  unfold convert_step, splitext, sleep, subprocess_run, os_remove, log_message, on_error.
  cbv zeta. rewrite bind_run. cbn [emit lift result self_after events].
  rewrite bind_run. cbn [mret M_ret result self_after events].
  destruct (splitext_str p) as [base ext]. cbn [fst snd].
  destruct (String.eqb (lower ext) ".mp4"); cbn [negb]; [reflexivity |].
  unfold try_except. rewrite bind_run. rewrite bind_run.
  cbn [emit result self_after events].
  destruct (run_process w (ffprobe_cmd p)) as [st out err | sig out err | msg];
    cbn [completed andb lift raise mret M_ret result self_after events is_SubprocessError exn_cls app];
    [ | | reflexivity ].
  all: rewrite bind_run; rewrite bind_run;
    cbn [emit result self_after events];
    set (cmd := ffmpeg_cmd _ p (base +:+ ".mp4"));
    destruct (completed cmd true (run_process w cmd)) as [e | out'];
    cbn [lift raise mret M_ret result self_after events app];
    [ destruct (is_SubprocessError e);
      [ rewrite bind_run, notify_run; cbn [mret M_ret result self_after events];
        same_events
      | reflexivity ]
    | rewrite bind_run; rewrite bind_run; cbn [emit result self_after events];
      destruct (remove_file w p) as [msg |];
      cbn [raise pass mret M_ret result self_after events app];
      [ reflexivity
      | rewrite bind_run, notify_run; cbn [mret M_ret result self_after events];
        same_events ] ].
Qed.

(** ** Terminal outcomes of a trace *)

Lemma terminal_outcomes_app (tr1 tr2 : list event) :
  terminal_outcomes (tr1 ++ tr2) = terminal_outcomes tr1 ++ terminal_outcomes tr2.
Proof.
  induction tr1 as [| e tr1 IH]; [reflexivity |].
  destruct e as [n | | | | |]; simpl; try exact IH.
  destruct (is_terminal n); simpl; [f_equal |]; exact IH.
Qed.

Lemma terminal_outcomes_none (tr : list event) :
  Forall (fun e => is_terminal_event e = false) tr -> terminal_outcomes tr = [].
Proof.
  induction 1 as [| e tr He _ IH]; [reflexivity |].
  destruct e as [n | | | | |]; simpl in *; try exact IH.
  rewrite He. exact IH.
Qed.

Lemma hook_event_not_terminal (e : event) :
  is_hook_event e -> is_terminal_event e = false.
Proof. destruct e as [[| | |] | | | | |]; simpl; intros H; (reflexivity || destruct H). Qed.

Lemma terminal_outcomes_deliver (cbs : gset string) (n : notification) :
  is_terminal n = false -> terminal_outcomes (deliver cbs n) = [].
Proof.
  intros Hn. unfold deliver. destruct (decide _); [| reflexivity].
  simpl. rewrite Hn. reflexivity.
Qed.

Lemma last_snoc_event (tr : list event) (e : event) : last (tr ++ [e]) = Some e.
Proof. induction tr as [| a [| b tr] IH]; try reflexivity. exact IH. Qed.

(** The transcode block leaves the downloader object as it is; it notifies
    a terminal outcome only as its last action, and exactly when it ends in
    [return]. *)
Lemma convert_step_closing (w : world) (file : value) (self : YtDlpDownloader) :
  let o := convert_step w file self in
  self_after o = self /\
  exists pre tail,
    events o = pre ++ tail /\
    terminal_outcomes pre = [] /\
    match result o with
    | inr Return => exists msg, tail = deliver (callbacks self) (OnError msg)
    | _ => tail = []
    end.
Proof.
  destruct file as [| b | z | p];
    [ split; [reflexivity |]; exists [Sleep 2], []; repeat split .. | ].
  cbv zeta. rewrite convert_step_run. cbv zeta.
  destruct (String.eqb _ ".mp4").
  { split; [reflexivity |]. exists [Sleep 2], []. repeat split. }
  destruct (run_process w (ffprobe_cmd p)) as [st out err | sig out err | msg];
    [ | | split; [reflexivity |]; eexists _, []; rewrite app_nil_r; repeat split ].
  all: match goal with
       | |- context [completed ?c true ?o] => destruct (completed c true o) as [e | out']
       end.
  all: try destruct (is_SubprocessError e).
  all: try destruct (remove_file w p) as [msg |].
  all: split; [reflexivity |].
  all: try (eexists _, []; rewrite app_nil_r; split; [reflexivity |]; split;
            [| reflexivity]; simpl; try reflexivity;
            apply (terminal_outcomes_deliver _ (LogMessage _)); reflexivity).
  all: eexists _, _; split; [reflexivity |]; split; [reflexivity |];
    cbn [result]; eauto.
Qed.

Lemma closing_is_last (tr pre : list event) (cbs : gset string) (t : notification) :
  tr = pre ++ deliver cbs t ->
  is_terminal t = true ->
  terminal_outcomes pre = [] ->
  callback_key t ∈ cbs ->
  terminal_outcomes tr = [t] /\ last tr = Some (Callback t).
Proof.
  intros -> Ht Hpre Hin. rewrite deliver_registered by exact Hin.
  rewrite terminal_outcomes_app, Hpre, last_snoc_event. simpl. rewrite Ht. auto.
Qed.

Lemma started_no_terminal (cbs : gset string) (message : string)
    (opts : gmap string optvalue) (urls : list string) (hooks : list event)
    (r : option exn) :
  Forall is_hook_event hooks ->
  terminal_outcomes
    ((deliver cbs (LogMessage message) ++ YdlEnter opts urls :: hooks) ++ [YdlLeave r]) = [].
Proof.
  intros Hh. rewrite !terminal_outcomes_app.
  rewrite (terminal_outcomes_deliver _ (LogMessage _)) by reflexivity. simpl.
  rewrite terminal_outcomes_none; [reflexivity |].
  eapply Forall_impl; [exact Hh | apply hook_event_not_terminal].
Qed.

(** ** C1: one terminal outcome, and it comes last *)

(** C1. A run of [download_video] returns to its caller without raising,
    and its trace is [pre ++ deliver cbs t]: [t] is [OnComplete] or an
    [OnError], issued through [on_complete] / [on_error] as the last action
    of the run, and [pre] holds no terminal notification. [pre] holds the
    return of the downloader call (the [YdlLeave] event) and every other
    event of the run, the settling delay, the child processes and the
    removal of the transcode step among them. When the bag of callbacks
    holds the function for [t], the trace has [t] as its one terminal
    outcome and as its last event, so that no log line and no progress update
    follows it. *)
Theorem download_video_one_terminal_outcome
    (w : world) (url output_dir selected_format : string)
    (with_subtitles with_thumbnail convert_to_mp4 : bool)
    (self : YtDlpDownloader) :
  let run := download_video w url output_dir selected_format
               with_subtitles with_thumbnail convert_to_mp4 in
  result (run self) = inr tt /\
  exists pre t,
    trace run self = pre ++ deliver (callbacks self) t /\
    is_terminal t = true /\
    terminal_outcomes pre = [] /\
    (exists r, YdlLeave r ∈ pre) /\
    (forall e, e ∈ trace run self -> is_terminal_event e = false -> e ∈ pre) /\
    (callback_key t ∈ callbacks self ->
     terminal_outcomes (trace run self) = [t] /\
     last (trace run self) = Some (Callback t)).
Proof.
  cbv zeta. unfold trace. rewrite download_video_run. cbv zeta.
  set (opts := ydl_opts _ _ _ _).
  destruct (ydl_call_hook_events (ydl_download w opts [url]) (reset self))
    as [Hcbs Hhooks].
  change (callbacks (reset self)) with (callbacks self) in Hcbs.
  set (o := ydl_call (ydl_download w opts [url]) (reset self)) in *.
  set (started := deliver (callbacks self) _ ++ YdlEnter opts [url] :: events o).
  assert (Hfinish : forall (tr pre : list event) (t : notification) (r : option exn),
            tr = (started ++ [YdlLeave r]) ++ pre ++ deliver (callbacks self) t ->
            is_terminal t = true ->
            terminal_outcomes pre = [] ->
            exists pre' t',
              tr = pre' ++ deliver (callbacks self) t' /\
              is_terminal t' = true /\
              terminal_outcomes pre' = [] /\
              (exists r, YdlLeave r ∈ pre') /\
              (forall e, e ∈ tr -> is_terminal_event e = false -> e ∈ pre') /\
              (callback_key t' ∈ callbacks self ->
               terminal_outcomes tr = [t'] /\ last tr = Some (Callback t'))).
  { intros tr pre t r -> Ht Hpre.
    exists ((started ++ [YdlLeave r]) ++ pre), t.
    assert (Hnone : terminal_outcomes ((started ++ [YdlLeave r]) ++ pre) = []).
    { rewrite terminal_outcomes_app, Hpre. unfold started.
      rewrite started_no_terminal by exact Hhooks. reflexivity. }
    split; [apply app_assoc |]. split; [exact Ht |]. split; [exact Hnone |].
    split.
    { exists r. apply elem_of_app; left. apply elem_of_app; right.
      apply list_elem_of_singleton; reflexivity. }
    split.
    - intros e He Hnt. rewrite app_assoc in He.
      apply elem_of_app in He as [He | He]; [exact He |].
      unfold deliver in He. destruct (decide _); [| inversion He].
      apply list_elem_of_singleton in He as ->. simpl in Hnt. congruence.
    - intros Hin. eapply closing_is_last; eauto using app_assoc. }
  destruct (result o) as [e | []]; cbn [result events].
  - split; [reflexivity |].
    apply (Hfinish _ [] (OnError (exn_str e)) (Some e)); [| reflexivity..].
    rewrite Hcbs. same_list.
  - destruct (bool_decide _ && convert_to_mp4 && truthy _); cbn [result events].
    + split; [reflexivity |].
      destruct (convert_step_closing w (downloaded_file (self_after o)) (self_after o))
        as (Hself & pre & tail & Hev & Hpre & Htail).
      rewrite Hself, Hev, Hcbs. rewrite Hcbs in Htail.
      destruct (result (convert_step w _ _)) as [e | [|]]; cbn [closing from_option].
      * subst tail. apply (Hfinish _ pre (OnError (exn_str e)) None); auto.
        same_list.
      * subst tail. apply (Hfinish _ pre OnComplete None); auto.
        same_list.
      * destruct Htail as [msg ->].
        apply (Hfinish _ pre (OnError msg) None); auto. same_list.
    + split; [reflexivity |].
      apply (Hfinish _ [] OnComplete None); [| reflexivity..].
      rewrite Hcbs. same_list.
Qed.

(** ** C7, C8: the option dict *)

(** C7. The format selection decides the [format] entry and the
    post-processors of the option dict as the table says, whatever the
    output directory and the subtitle flag: [mp3] asks for
    [bestaudio/best] and extracts the audio to mp3 at quality 192; [mp4]
    asks for best mp4 video plus m4a audio, then best mp4, then best;
    [webm] asks for the same chain on webm; [best] sets no [format] at all.
    Without the thumbnail flag no other post-processor is there: [mp3] has
    the extraction alone, the other three have no [postprocessors] entry. *)
Theorem ydl_opts_format_table (output_dir : string) (with_subtitles : bool) :
  let opts := fun selected_format with_thumbnail =>
    ydl_opts output_dir selected_format with_subtitles with_thumbnail in
  (forall with_thumbnail,
     opts "mp3" with_thumbnail !! "format" = Some (OStr "bestaudio/best") /\
     opts "mp4" with_thumbnail !! "format" =
       Some (OStr "bestvideo[ext=mp4]+bestaudio[ext=m4a]/best[ext=mp4]/best") /\
     opts "webm" with_thumbnail !! "format" =
       Some (OStr "bestvideo[ext=webm]+bestaudio[ext=webm]/best[ext=webm]/best") /\
     opts "best" with_thumbnail !! "format" = None) /\
  opts "mp3" false !! "postprocessors" = Some (OPostprocessors [FFmpegExtractAudio]) /\
  opts "mp4" false !! "postprocessors" = None /\
  opts "webm" false !! "postprocessors" = None /\
  opts "best" false !! "postprocessors" = None /\
  FFmpegExtractAudio !! "key" = Some "FFmpegExtractAudio" /\
  FFmpegExtractAudio !! "preferredcodec" = Some "mp3" /\
  FFmpegExtractAudio !! "preferredquality" = Some "192" /\
  dom FFmpegExtractAudio = {[ "key"; "preferredcodec"; "preferredquality" ]}.
Proof.
  cbv zeta. split.
  - intros with_thumbnail. destruct with_subtitles, with_thumbnail; repeat split; reflexivity.
  - destruct with_subtitles; repeat split; try reflexivity;
      apply leibniz_equiv; vm_compute; reflexivity.
Qed.

Lemma get_postprocessors_update_thumbnail (opts : gmap string optvalue)
    (pps : list (gmap string string)) :
  get_postprocessors
    (update opts {[ "writethumbnail" := OBool true;
                    "postprocessors" := OPostprocessors pps ]}) = pps.
Proof.
  unfold get_postprocessors, update.
  rewrite (lookup_union_Some_l _ _ _ (OPostprocessors pps)); [reflexivity |].
  rewrite lookup_insert_ne by discriminate. apply lookup_insert_eq.
Qed.

(** C8. With the thumbnail flag the conversion of thumbnails to jpg is
    appended to the post-processors that the format selection put there:
    for every format the list is the one without the flag followed by the
    thumbnail step, and the thumbnail download is requested. For [mp3] the
    list is the audio extraction followed by the thumbnail conversion, both
    present and in that order. *)
Theorem ydl_opts_thumbnail_appended
    (output_dir selected_format : string) (with_subtitles : bool) :
  let without := ydl_opts output_dir selected_format with_subtitles false in
  let with_ := ydl_opts output_dir selected_format with_subtitles true in
  get_postprocessors with_ = get_postprocessors without ++ [FFmpegThumbnailsConvertor] /\
  with_ !! "postprocessors" =
    Some (OPostprocessors (get_postprocessors without ++ [FFmpegThumbnailsConvertor])) /\
  with_ !! "writethumbnail" = Some (OBool true) /\
  ydl_opts output_dir "mp3" with_subtitles true !! "postprocessors" =
    Some (OPostprocessors [FFmpegExtractAudio; FFmpegThumbnailsConvertor]) /\
  FFmpegThumbnailsConvertor !! "key" = Some "FFmpegThumbnailsConvertor" /\
  FFmpegThumbnailsConvertor !! "format" = Some "jpg" /\
  FFmpegExtractAudio <> FFmpegThumbnailsConvertor.
Proof.
  cbv zeta. unfold ydl_opts. cbv zeta.
  cbn [andb]. cbv beta iota.
  set (chosen := if decide (selected_format = "mp3") then _ else _).
  set (subs := if with_subtitles then _ else chosen).
  split; [apply get_postprocessors_update_thumbnail |].
  split.
  { unfold update. apply lookup_union_Some_l.
    rewrite lookup_insert_ne by discriminate. apply lookup_insert_eq. }
  split.
  { unfold update. apply lookup_union_Some_l. apply lookup_insert_eq. }
  split; [destruct with_subtitles; reflexivity |].
  split; [reflexivity |]. split; [reflexivity |].
  intros Heq. apply (f_equal (fun m : gmap string string => m !! "format")) in Heq.
  vm_compute in Heq. discriminate Heq.
Qed.

(** ** C9: the logger adapter *)

Lemma startswith_app (prefix rest : string) :
  startswith (prefix +:+ rest) prefix = true.
Proof.
  unfold startswith. induction prefix as [| a prefix IH]; simpl.
  - destruct rest; reflexivity.
  - destruct (ascii_dec a a) as [_ | Hne]; [exact IH | contradiction].
Qed.

Lemma startswith_inv (s prefix : string) :
  startswith s prefix = true -> exists rest, s = prefix +:+ rest.
Proof.
  unfold startswith. revert s. induction prefix as [| a prefix IH]; intros s H.
  - exists s. reflexivity.
  - destruct s as [| b s]; simpl in H; [discriminate |].
    destruct (ascii_dec a b) as [-> | _]; [| discriminate].
    destruct (IH s H) as [rest ->]. exists rest. reflexivity.
Qed.

(** C9. What the logger forwards, for every message and every downloader:
    [debug] drops a line that starts with the marker ["[debug] "] and
    forwards any other line unchanged, as [info] does; [warning] and [error]
    forward the line with ["Warning: "] and ["Error: "] in front. Nothing
    raises and the downloader object is left as it is. *)
Theorem CustomLogger_forwards (msg : string) (self : YtDlpDownloader) :
  let cbs := callbacks self in
  (forall rest,
     CustomLogger.call Debug ("[debug] " +:+ rest) self = Outcome (inr tt) self []) /\
  ((forall rest, msg <> "[debug] " +:+ rest) ->
     CustomLogger.call Debug msg self =
     Outcome (inr tt) self (deliver cbs (LogMessage msg))) /\
  CustomLogger.call Info msg self =
    Outcome (inr tt) self (deliver cbs (LogMessage msg)) /\
  CustomLogger.call Warning msg self =
    Outcome (inr tt) self (deliver cbs (LogMessage ("Warning: " +:+ msg))) /\
  CustomLogger.call Error msg self =
    Outcome (inr tt) self (deliver cbs (LogMessage ("Error: " +:+ msg))).
Proof.
  cbv zeta. unfold CustomLogger.call, CustomLogger.debug, CustomLogger.info,
    CustomLogger.warning, CustomLogger.error, log_message.
  repeat split; try apply notify_run.
  - intros rest. rewrite startswith_app. reflexivity.
  - intros Hmarker. destruct (startswith msg "[debug] ") eqn:Hs.
    + apply startswith_inv in Hs as [rest ->]. destruct (Hmarker rest). reflexivity.
    + apply notify_run.
Qed.

(** A line yt-dlp prints through [debug] without the marker reaches the
    log of the window. *)
Lemma CustomLogger_forwards_witness :
  CustomLogger.call Debug "[youtube] Extracting URL" (init (Some Gui.signals)) =
  Outcome (inr tt) (init (Some Gui.signals))
    [Callback (LogMessage "[youtube] Extracting URL")].
Proof.
  destruct (CustomLogger_forwards "[youtube] Extracting URL" (init (Some Gui.signals)))
    as (_ & Hplain & _).
  rewrite Hplain; [reflexivity |].
  intros rest Heq. discriminate Heq.
Defined.

(** ** C10: the window never asks for the conversion *)

Lemma deliver_no_transcode (cbs : gset string) (n : notification) :
  Forall (fun e => is_transcode_event e = false) (deliver cbs n).
Proof. unfold deliver. destruct (decide _); repeat constructor. Qed.

Lemma hook_events_no_transcode (tr : list event) :
  Forall is_hook_event tr -> Forall (fun e => is_transcode_event e = false) tr.
Proof.
  intros Hh. eapply Forall_impl; [exact Hh |].
  intros [[| | |] | | | | |] H; (reflexivity || destruct H).
Qed.

(** Without [convert_to_mp4] the transcode block is never entered: no
    delay, no child process, no removal. *)
Lemma download_video_without_convert
    (w : world) (url output_dir selected_format : string)
    (with_subtitles with_thumbnail : bool) (self : YtDlpDownloader) :
  Forall (fun e => is_transcode_event e = false)
    (trace (download_video w url output_dir selected_format
              with_subtitles with_thumbnail false) self).
Proof.
  unfold trace. rewrite download_video_run. cbv zeta.
  set (opts := ydl_opts _ _ _ _).
  destruct (ydl_call_hook_events (ydl_download w opts [url]) (reset self))
    as [_ Hhooks].
  apply hook_events_no_transcode in Hhooks.
  rewrite andb_false_r. cbn [andb].
  destruct (result _) as [e | []]; cbn [events];
    repeat first [apply Forall_app; split | constructor];
    auto using deliver_no_transcode.
Qed.

(** C10. Whatever the world and whatever the state of the window (format
    selection included), the worker that the start action of the window
    launches is [download_video] with [convert_to_mp4 = False], the default
    of the argument the window does not pass; its run has no event of the
    transcode step. *)
Theorem gui_start_download_never_converts
    (w : world) (g : Gui.YtDlpGui) (o : outcome unit) :
  Gui.worker (Gui.start_download w g) = Some o ->
  o = download_video w (str_strip (Gui.url_entry g)) (Gui.output_dir_entry g)
        (Gui.format_combo g) (Gui.subtitles_check g) (Gui.thumbnail_check g)
        false (Gui.downloader g) /\
  Forall (fun e => is_transcode_event e = false) (events o).
Proof.
  unfold Gui.start_download.
  destruct (negb (truthy (VStr (str_strip (Gui.url_entry g))))); cbn [Gui.worker];
    intros Ho; [discriminate Ho |].
  injection Ho as <-. split; [reflexivity |].
  apply download_video_without_convert.
Qed.

(** ** The trace of a request, part by part *)

Lemma not_in_by (P : event -> bool) (tr : list event) (e : event) :
  Forall (fun x => P x = true) tr -> P e = false -> e ∉ tr.
Proof.
  intros Hall He Hin. rewrite Forall_forall in Hall.
  specialize (Hall e Hin). congruence.
Qed.

Lemma started_events (cbs : gset string) (message : string)
    (opts : gmap string optvalue) (urls : list string) (hooks : list event) :
  Forall is_hook_event hooks ->
  Forall (fun e => is_started_event e = true)
    (deliver cbs (LogMessage message) ++ YdlEnter opts urls :: hooks).
Proof.
  intros Hh. apply Forall_app; split.
  - unfold deliver. destruct (decide _); repeat constructor.
  - constructor; [reflexivity |]. eapply Forall_impl; [exact Hh |].
    intros [[| | |] | | | | |] H; (reflexivity || destruct H).
Qed.

Lemma deliver_block_event (cbs : gset string) (n : notification) :
  is_block_event (Callback n) = true ->
  Forall (fun e => is_block_event e = true) (deliver cbs n).
Proof. intros Hn. unfold deliver. destruct (decide _); repeat constructor. exact Hn. Qed.

Lemma convert_step_block_events (w : world) (file : value) (self : YtDlpDownloader) :
  Forall (fun e => is_block_event e = true) (events (convert_step w file self)).
Proof.
  destruct file as [| b | z | p]; [repeat constructor .. |].
  rewrite convert_step_run. cbv zeta.
  destruct (String.eqb _ ".mp4"); [repeat constructor |].
  destruct (run_process w (ffprobe_cmd p)) as [st out err | sig out err | msg];
    [ | | repeat constructor ].
  all: match goal with
       | |- context [completed ?c true ?o] => destruct (completed c true o) as [e | out']
       end.
  all: try destruct (is_SubprocessError e).
  all: try destruct (remove_file w p) as [msg |].
  all: cbn [events];
    repeat first [apply Forall_app; split | constructor];
    apply deliver_block_event; reflexivity.
Qed.

(** The downloader object at the end of a request is the one the download
    call left: what was recorded then is what the test before the transcode
    block saw. *)
Lemma download_video_self_after
    (w : world) (url output_dir selected_format : string)
    (with_subtitles with_thumbnail convert_to_mp4 : bool)
    (self : YtDlpDownloader) :
  let opts := ydl_opts output_dir selected_format with_subtitles with_thumbnail in
  self_after (download_video w url output_dir selected_format with_subtitles
                with_thumbnail convert_to_mp4 self) =
  self_after (ydl_call (ydl_download w opts [url]) (reset self)) /\
  callbacks (self_after (download_video w url output_dir selected_format
                with_subtitles with_thumbnail convert_to_mp4 self)) =
  callbacks self.
Proof.
  cbv zeta. rewrite download_video_run. cbv zeta.
  set (opts := ydl_opts _ _ _ _).
  destruct (ydl_call_hook_events (ydl_download w opts [url]) (reset self))
    as [Hcbs _].
  change (callbacks (reset self)) with (callbacks self) in Hcbs.
  set (o := ydl_call (ydl_download w opts [url]) (reset self)) in *.
  destruct (result o) as [e | []]; cbn [self_after]; [auto |].
  destruct (bool_decide _ && convert_to_mp4 && truthy _); cbn [self_after]; [| auto].
  destruct (convert_step_closing w (downloaded_file (self_after o)) (self_after o))
    as [Hself _].
  rewrite Hself. auto.
Qed.

Lemma convert_step_starts_with_delay (w : world) (file : value)
    (self : YtDlpDownloader) :
  exists rest, events (convert_step w file self) = Sleep 2 :: rest.
Proof.
  unfold convert_step, sleep. rewrite bind_run. cbn [emit result self_after events].
  eexists. reflexivity.
Qed.

(** A request is its download part, the return [r] of the download call,
    and then either the transcode block with the terminal notification the
    block leaves to make, under the test of the source, or the terminal
    notification alone. *)
Lemma download_video_shape
    (w : world) (url output_dir selected_format : string)
    (with_subtitles with_thumbnail convert_to_mp4 : bool)
    (self : YtDlpDownloader) :
  let o := download_video w url output_dir selected_format with_subtitles
             with_thumbnail convert_to_mp4 self in
  let recorded := downloaded_file (self_after o) in
  let block := convert_step w recorded (self_after o) in
  let test := fun r : option exn =>
    r = None /\ selected_format = "best" /\ convert_to_mp4 = true /\
    truthy recorded = true in
  exists started r,
    Forall (fun e => is_started_event e = true) started /\
    ((test r /\
      events o = started ++ YdlLeave None :: events block ++
                 from_option (deliver (callbacks self)) [] (closing (result block)))
     \/
     (~ test r /\
      exists t, is_terminal t = true /\
                events o = started ++ YdlLeave r :: deliver (callbacks self) t)).
Proof.
  cbv zeta.
  destruct (download_video_self_after w url output_dir selected_format
              with_subtitles with_thumbnail convert_to_mp4 self) as [Hself _].
  cbv zeta in Hself. rewrite Hself. clear Hself.
  rewrite download_video_run. cbv zeta.
  set (opts := ydl_opts _ _ _ _).
  destruct (ydl_call_hook_events (ydl_download w opts [url]) (reset self))
    as [Hcbs Hhooks].
  change (callbacks (reset self)) with (callbacks self) in Hcbs.
  set (o := ydl_call (ydl_download w opts [url]) (reset self)) in *.
  pose proof (started_events (callbacks self)
                ("Starting download of " +:+ url) opts [url] _ Hhooks) as Hstarted.
  set (started := deliver (callbacks self) _ ++ YdlEnter opts [url] :: events o) in *.
  destruct (result o) as [e | []]; cbn [events].
  - exists started, (Some e). split; [exact Hstarted |]. right. split.
    + intros (Hr & _). discriminate Hr.
    + exists (OnError (exn_str e)). rewrite Hcbs. auto.
  - exists started, None. split; [exact Hstarted |].
    destruct (bool_decide (selected_format = "best")) eqn:Hfmt;
      [apply bool_decide_eq_true in Hfmt | apply bool_decide_eq_false in Hfmt];
      destruct convert_to_mp4;
      destruct (truthy (downloaded_file (self_after o))) eqn:Hrec;
      cbn [andb events];
      try (right; split;
           [ intros (_ & ? & ? & ?); congruence
           | exists OnComplete; rewrite Hcbs; auto ]).
    left. split; [auto |].
    destruct (convert_step_closing w (downloaded_file (self_after o)) (self_after o))
      as [Hblock _].
    rewrite Hblock, Hcbs. reflexivity.
Qed.

(** What the shape tells about membership: the return of the download
    call is the [YdlLeave] of the trace, and the delay is in the trace only if
    the block was entered. *)
Lemma started_not_left (started : list event) (r : option exn) :
  Forall (fun e => is_started_event e = true) started -> YdlLeave r ∉ started.
Proof. intros H. apply (not_in_by is_started_event); [exact H | reflexivity]. Qed.

Lemma started_not_transcode (started : list event) (e : event) :
  Forall (fun e => is_started_event e = true) started ->
  is_transcode_event e = true -> e ∉ started.
Proof.
  intros H He. apply (not_in_by is_started_event); [exact H |].
  destruct e; try discriminate He; reflexivity.
Qed.

Lemma deliver_only_callback (cbs : gset string) (n : notification) (e : event) :
  e ∈ deliver cbs n -> e = Callback n.
Proof.
  unfold deliver. destruct (decide _); intros H; [| inversion H].
  apply list_elem_of_singleton in H. exact H.
Qed.

(** Membership in a trace given part by part. *)
Ltac split_membership H :=
  repeat first
    [ apply elem_of_app in H as [H | H]
    | apply elem_of_cons in H as [H | H]
    | apply deliver_only_callback in H ];
  try discriminate H;
  try (apply elem_of_nil in H; destruct H).

(** ** C5: when the transcode step runs *)

(** C5. The transcode block is entered (its settling delay is in the
    trace) if and only if the download call returned without raising, the
    format selection is [best], [convert_to_mp4] was passed as true and the
    recorded file is a true value, that is, a finished payload left a
    non-empty name. When it is entered on a name whose extension, lowered,
    is [.mp4], the delay is all that happens: no child process is started,
    no file is removed, no error is notified, and the request ends with
    [on_complete]. *)
Theorem transcode_step_condition
    (w : world) (url output_dir selected_format : string)
    (with_subtitles with_thumbnail convert_to_mp4 : bool)
    (self : YtDlpDownloader) :
  let o := download_video w url output_dir selected_format with_subtitles
             with_thumbnail convert_to_mp4 self in
  let recorded := downloaded_file (self_after o) in
  (Sleep 2 ∈ events o <->
   YdlLeave None ∈ events o /\ selected_format = "best" /\
   convert_to_mp4 = true /\ truthy recorded = true) /\
  (forall p,
     Sleep 2 ∈ events o ->
     recorded = VStr p ->
     lower (snd (splitext_str p)) = ".mp4" ->
     (forall cmd, SubprocessRun cmd ∉ events o) /\
     (forall path, OsRemove path ∉ events o) /\
     (forall msg, Callback (OnError msg) ∉ events o) /\
     exists download,
       events o = download ++ Sleep 2 :: deliver (callbacks self) OnComplete).
Proof.
  cbv zeta.
  destruct (download_video_shape w url output_dir selected_format with_subtitles
              with_thumbnail convert_to_mp4 self)
    as (started & r & Hstarted & [[Htest Hev] | [Htest (t & Ht & Hev)]]);
    cbv zeta in *; rewrite Hev.
  - destruct Htest as (-> & Hfmt & Hconv & Hrec).
    split.
    + split; [intros _ | intros _].
      * split; [| auto]. apply elem_of_app; right. apply elem_of_cons; left. reflexivity.
      * destruct (convert_step_starts_with_delay w
                    (downloaded_file (self_after (download_video w url output_dir
                       selected_format with_subtitles with_thumbnail convert_to_mp4 self)))
                    (self_after (download_video w url output_dir
                       selected_format with_subtitles with_thumbnail convert_to_mp4 self)))
          as [rest ->].
        apply elem_of_app; right. apply elem_of_cons; right.
        apply elem_of_cons; left. reflexivity.
    + intros p _ Hp Hext. rewrite Hp. rewrite convert_step_run. cbv zeta.
      rewrite Hext. cbn [String.eqb events result closing from_option app].
      change (String.eqb ".mp4" ".mp4") with true. cbv iota.
      cbn [events result closing from_option app].
      repeat split.
      * intros cmd Hin. split_membership Hin.
        revert Hin. apply started_not_transcode; [exact Hstarted | reflexivity].
      * intros path Hin. split_membership Hin.
        revert Hin. apply started_not_transcode; [exact Hstarted | reflexivity].
      * intros msg Hin. split_membership Hin.
        revert Hin. apply (not_in_by is_started_event); [exact Hstarted | reflexivity].
      * exists (started ++ [YdlLeave None]). same_list.
  - split.
    + split.
      * intros Hin. exfalso. split_membership Hin. revert Hin.
        apply started_not_transcode; [exact Hstarted | reflexivity].
      * intros (Hin & Hfmt & Hconv & Hrec). exfalso. apply Htest.
        split; [| auto]. split_membership Hin;
          [ exfalso; revert Hin; apply started_not_left; exact Hstarted
          | injection Hin as <-; reflexivity ].
    + intros p Hin. exfalso. split_membership Hin. revert Hin.
      apply started_not_transcode; [exact Hstarted | reflexivity].
Qed.

(** Once the delay is in the trace, the trace is the download part, the
    normal return of the download call, the block, and what the block
    leaves to notify. *)
Lemma download_video_entered
    (w : world) (url output_dir selected_format : string)
    (with_subtitles with_thumbnail convert_to_mp4 : bool)
    (self : YtDlpDownloader) :
  let o := download_video w url output_dir selected_format with_subtitles
             with_thumbnail convert_to_mp4 self in
  let block := convert_step w (downloaded_file (self_after o)) (self_after o) in
  Sleep 2 ∈ events o ->
  exists started,
    Forall (fun e => is_started_event e = true) started /\
    events o = started ++ YdlLeave None :: events block ++
               from_option (deliver (callbacks self)) [] (closing (result block)).
Proof.
  cbv zeta.
  destruct (download_video_shape w url output_dir selected_format with_subtitles
              with_thumbnail convert_to_mp4 self)
    as (started & r & Hstarted & [[Htest Hev] | [Htest (t & Ht & Hev)]]);
    cbv zeta in *.
  - intros _. exists started. auto.
  - rewrite Hev. intros Hin. exfalso. split_membership Hin. revert Hin.
    apply started_not_transcode; [exact Hstarted | reflexivity].
Qed.

Lemma completed_unchecked (cmd : list string) (o : proc_outcome) (out : string) :
  completed cmd false o = inr out ->
  exists err, (exists st, o = Exited st out err) \/ (exists sig, o = Signalled sig out err).
Proof.
  destruct o as [st out' err | sig out' err | msg]; simpl; intros H;
    [ injection H as -> | injection H as -> | discriminate H ]; eauto.
Qed.

(** ** C6: the conversion command follows the probe *)

(** C6. In a transcode step that gets past the extension test (the
    recorded name [p] does not end in [.mp4]) and whose probe could be
    started and printed [out]: when [out] holds more than whitespace (a video
    stream was found) the command that is run is ffmpeg with the video
    re-encoded by libx264 at the ultrafast preset and the audio copied, into
    [p] with its extension replaced by [.mp4]; when [out] is blank the
    command drops the video ([-vn]) and copies the audio into that file.
    Apart from the probe it is the only child process of the request. *)
Theorem transcode_command_by_probe
    (w : world) (url output_dir selected_format : string)
    (with_subtitles with_thumbnail convert_to_mp4 : bool)
    (self : YtDlpDownloader) (p out : string) :
  let o := download_video w url output_dir selected_format with_subtitles
             with_thumbnail convert_to_mp4 self in
  let probe :=
    [ "ffprobe"; "-v"; "error"; "-select_streams"; "v:0";
      "-show_entries"; "stream=codec_type"; "-of"; "csv=p=0"; p ] in
  let mp4_file := fst (splitext_str p) +:+ ".mp4" in
  let reencode_video :=
    [ "ffmpeg"; "-y"; "-i"; p; "-c:v"; "libx264"; "-preset"; "ultrafast";
      "-c:a"; "copy"; mp4_file ] in
  let audio_only :=
    [ "ffmpeg"; "-y"; "-i"; p; "-vn"; "-c:a"; "copy"; mp4_file ] in
  let cmd :=
    if String.eqb (bytes_strip out) EmptyString then audio_only else reencode_video in
  Sleep 2 ∈ events o ->
  downloaded_file (self_after o) = VStr p ->
  lower (snd (splitext_str p)) <> ".mp4" ->
  completed probe false (run_process w probe) = inr out ->
  SubprocessRun cmd ∈ events o /\
  (forall c, SubprocessRun c ∈ events o -> c = probe \/ c = cmd).
Proof.
  cbv zeta. intros Hentered Hp Hext Hprobe.
  destruct (download_video_entered w url output_dir selected_format with_subtitles
              with_thumbnail convert_to_mp4 self Hentered)
    as (started & Hstarted & Hev).
  rewrite Hev. clear Hev Hentered. rewrite Hp. clear Hp.
  rewrite convert_step_run. cbv zeta.
  apply String.eqb_neq in Hext. rewrite Hext.
  change (ffprobe_cmd p) with
    [ "ffprobe"; "-v"; "error"; "-select_streams"; "v:0";
      "-show_entries"; "stream=codec_type"; "-of"; "csv=p=0"; p ].
  set (probe := [ "ffprobe"; _; _; _; _; _; _; _; _; p ]) in *.
  apply completed_unchecked in Hprobe as (err & [[st ->] | [sig ->]]).
  all: set (cmd := ffmpeg_cmd _ p _).
  all: assert (Hcmd : cmd =
         if String.eqb (bytes_strip out) EmptyString
         then [ "ffmpeg"; "-y"; "-i"; p; "-vn"; "-c:a"; "copy";
                fst (splitext_str p) +:+ ".mp4" ]
         else [ "ffmpeg"; "-y"; "-i"; p; "-c:v"; "libx264"; "-preset"; "ultrafast";
                "-c:a"; "copy"; fst (splitext_str p) +:+ ".mp4" ])
    by (unfold cmd, ffmpeg_cmd; destruct (String.eqb (bytes_strip out) EmptyString);
        reflexivity).
  all: rewrite <- Hcmd; clearbody cmd; clear Hcmd.
  all: destruct (completed cmd true (run_process w cmd)) as [e | out'];
    [ destruct (is_SubprocessError e) | destruct (remove_file w p) as [msg |] ];
    cbn [events result closing from_option app].
  all: split;
    [ apply elem_of_app; right; do 3 (apply elem_of_cons; right);
      apply elem_of_cons; left; reflexivity
    | intros c Hin; split_membership Hin;
      try (injection Hin as ->; auto; fail);
      exfalso; revert Hin;
      apply started_not_transcode; [exact Hstarted | reflexivity] ].
Qed.

Example convert_request_trace :
  events (Scenario.convert_request
            (Scenario.world_of "/tmp/out/clip.webm" "video"
               (Exited 0 EmptyString EmptyString))) =
  [ Callback (LogMessage "Starting download of https://example/video");
    YdlEnter (ydl_opts "/tmp/out" "best" false false) ["https://example/video"];
    Callback (LogMessage "[youtube] Extracting URL: https://example/video");
    Callback (UpdateProgress "downloading"
                (Some {[ "percent" := VStr " 50.0%";
                         "speed" := VStr "1.00MiB/s";
                         "eta" := VStr "N/A" ]}));
    Callback (LogMessage "Download finished: clip.webm");
    Callback (UpdateProgress "processing" None);
    YdlLeave None;
    Sleep 2;
    SubprocessRun [ "ffprobe"; "-v"; "error"; "-select_streams"; "v:0";
                    "-show_entries"; "stream=codec_type"; "-of"; "csv=p=0";
                    "/tmp/out/clip.webm" ];
    SubprocessRun [ "ffmpeg"; "-y"; "-i"; "/tmp/out/clip.webm";
                    "-c:v"; "libx264"; "-preset"; "ultrafast";
                    "-c:a"; "copy"; "/tmp/out/clip.mp4" ];
    OsRemove "/tmp/out/clip.webm";
    Callback (LogMessage "Converted to mp4: clip.mp4");
    Callback OnComplete ].
Proof. vm_compute. reflexivity. Qed.

(** The window after the signals of the successful conversion: the log
    holds the forwarded lines, the bar is hidden, the success box is shown. *)
Example convert_request_window :
  match Gui.dispatch Scenario.window
          (events (Scenario.convert_request
                     (Scenario.world_of "/tmp/out/clip.webm" "video"
                        (Exited 0 EmptyString EmptyString)))) with
  | inr g =>
      Gui.status_label g = "Download complete!" /\
      Gui.progress_bar_shown g = false /\
      Gui.log_text g =
        [ "Starting download of https://example/video";
          "[youtube] Extracting URL: https://example/video";
          "Download finished: clip.webm";
          "Converted to mp4: clip.mp4" ] /\
      Gui.boxes g =
        [ Gui.MessageBox Gui.Information "Success" "Download completed successfully!" ]
  | inl _ => False
  end.
Proof. vm_compute. repeat split. Qed.

(** The scenario of C1: the bag of the window holds both terminal
    callbacks, the request has one terminal outcome and it is the last
    event. *)
Lemma download_video_one_terminal_outcome_witness :
  exists t,
    terminal_outcomes
      (events (Scenario.convert_request
                 (Scenario.world_of "/tmp/out/clip.webm" "video"
                    (Exited 1 EmptyString Scenario.ffmpeg_diagnostic)))) = [t] /\
    last (events (Scenario.convert_request
                    (Scenario.world_of "/tmp/out/clip.webm" "video"
                       (Exited 1 EmptyString Scenario.ffmpeg_diagnostic))))
    = Some (Callback t).
Proof.
  destruct (download_video_one_terminal_outcome
              (Scenario.world_of "/tmp/out/clip.webm" "video"
                 (Exited 1 EmptyString Scenario.ffmpeg_diagnostic))
              "https://example/video" "/tmp/out" "best" false false true
              Scenario.gui_downloader)
    as (_ & pre & t & _ & Ht & _ & _ & _ & Hone).
  exists t. apply Hone.
  destruct t; try discriminate Ht; vm_compute; reflexivity.
Defined.

(** The scenario of C5: the finished file is already an mp4. *)
Lemma transcode_step_condition_witness :
  exists download,
    events (Scenario.convert_request
              (Scenario.world_of "/tmp/out/clip.MP4" "video"
                 (Exited 0 EmptyString EmptyString))) =
    download ++ [Sleep 2; Callback OnComplete].
Proof.
  destruct (transcode_step_condition
              (Scenario.world_of "/tmp/out/clip.MP4" "video"
                 (Exited 0 EmptyString EmptyString))
              "https://example/video" "/tmp/out" "best" false false true
              Scenario.gui_downloader) as [_ Hskip].
  cbv zeta in Hskip.
  destruct (Hskip "/tmp/out/clip.MP4") as (_ & _ & _ & Hend).
  - vm_compute. do 7 apply list_elem_of_further. apply list_elem_of_here.
  - vm_compute. reflexivity.
  - vm_compute. reflexivity.
  - exact Hend.
Defined.

(** The scenario of C6: the probe finds a video stream in [clip.webm]. *)
Lemma transcode_command_by_probe_witness :
  SubprocessRun [ "ffmpeg"; "-y"; "-i"; "/tmp/out/clip.webm";
                  "-c:v"; "libx264"; "-preset"; "ultrafast";
                  "-c:a"; "copy"; "/tmp/out/clip.mp4" ] ∈
  events (Scenario.convert_request
            (Scenario.world_of "/tmp/out/clip.webm" "video"
               (Exited 0 EmptyString EmptyString))).
Proof.
  refine (proj1 (transcode_command_by_probe
            (Scenario.world_of "/tmp/out/clip.webm" "video"
               (Exited 0 EmptyString EmptyString))
            "https://example/video" "/tmp/out" "best" false false true
            Scenario.gui_downloader "/tmp/out/clip.webm" "video" _ _ _ _)).
  - vm_compute. do 7 apply list_elem_of_further. apply list_elem_of_here.
  - vm_compute. reflexivity.
  - vm_compute. discriminate.
  - vm_compute. reflexivity.
Defined.

(** The scenario of C10: the start action on a window with a URL. *)
Lemma gui_start_download_never_converts_witness :
  Forall (fun e => is_transcode_event e = false)
    (events (download_video
               (Scenario.world_of "/tmp/out/clip.webm" "video"
                  (Exited 0 EmptyString EmptyString))
               "https://example/video" "/tmp/out" "best" false false false
               Scenario.gui_downloader)).
Proof.
  apply (gui_start_download_never_converts
           (Scenario.world_of "/tmp/out/clip.webm" "video"
              (Exited 0 EmptyString EmptyString))
           Scenario.window).
  reflexivity.
Defined.

(** ** C4: how the conversion ends *)

(** C4, as stated, fails. ffmpeg exits with status 1 after printing a
    diagnostic on its standard error: the failure that is notified names the
    command and the exit status, and the captured text is not in it. *)
Lemma transcode_failure_omits_captured_text :
  let tr := events (Scenario.convert_request
                      (Scenario.world_of "/tmp/out/clip.webm" "video"
                         (Exited 1 EmptyString Scenario.ffmpeg_diagnostic))) in
  last tr =
    Some (Callback (OnError
      "ffmpeg conversion failed: Command '['ffmpeg', '-y', '-i', '/tmp/out/clip.webm', '-c:v', 'libx264', '-preset', 'ultrafast', '-c:a', 'copy', '/tmp/out/clip.mp4']' returned non-zero exit status 1.")) /\
  ~ reports_captured_diagnostic tr Scenario.ffmpeg_diagnostic.
Proof.
  cbv zeta.
  assert (Htr :
    events (Scenario.convert_request
              (Scenario.world_of "/tmp/out/clip.webm" "video"
                 (Exited 1 EmptyString Scenario.ffmpeg_diagnostic))) =
    [ Callback (LogMessage "Starting download of https://example/video");
      YdlEnter (ydl_opts "/tmp/out" "best" false false) ["https://example/video"];
      Callback (LogMessage "[youtube] Extracting URL: https://example/video");
      Callback (UpdateProgress "downloading"
                  (Some {[ "percent" := VStr " 50.0%";
                           "speed" := VStr "1.00MiB/s";
                           "eta" := VStr "N/A" ]}));
      Callback (LogMessage "Download finished: clip.webm");
      Callback (UpdateProgress "processing" None);
      YdlLeave None;
      Sleep 2;
      SubprocessRun (ffprobe_cmd "/tmp/out/clip.webm");
      SubprocessRun (ffmpeg_cmd true "/tmp/out/clip.webm" "/tmp/out/clip.mp4");
      Callback (OnError
        "ffmpeg conversion failed: Command '['ffmpeg', '-y', '-i', '/tmp/out/clip.webm', '-c:v', 'libx264', '-preset', 'ultrafast', '-c:a', 'copy', '/tmp/out/clip.mp4']' returned non-zero exit status 1.") ])
    by (vm_compute; reflexivity).
  rewrite Htr. clear Htr. split; [reflexivity |].
  intros (msg & Hin & Hsub). revert Hsub.
  repeat (apply elem_of_cons in Hin as [Hin | Hin]; [try discriminate Hin |]).
  - injection Hin as ->. vm_compute. discriminate.
  - apply elem_of_nil in Hin. destruct Hin.
Qed.

Lemma string_app_assoc (s1 s2 s3 : string) :
  (s1 +:+ s2) +:+ s3 = s1 +:+ s2 +:+ s3.
Proof.
  induction s1 as [| a s1 IH]; [reflexivity |].
  change (String a ((s1 +:+ s2) +:+ s3) = String a (s1 +:+ s2 +:+ s3)).
  rewrite IH. reflexivity.
Qed.

Lemma called_process_error_str (cmd : list string) (verb what : string) :
  exn_str (called_process_error cmd (verb +:+ what)) =
  "Command '" +:+ repr_list cmd +:+ "' " +:+ verb +:+ what +:+ "." /\
  is_SubprocessError (called_process_error cmd (verb +:+ what)) = true.
Proof.
  split; [| reflexivity]. unfold called_process_error. cbn [exn_str].
  rewrite (string_app_assoc verb what "."). reflexivity.
Qed.

(** C4, amended. In a transcode step that gets past the extension test and
    whose probe could be started, the conversion command [cmd] ends the
    request in one of these ways:
    - it exits with a status other than 0, or is killed by a signal: the
      failure notified is ["ffmpeg conversion failed: "] followed by the text
      of the exception, which names the command and the exit status (or the
      signal) and holds nothing of the captured output; no file is removed;
    - it cannot be started: the failure notified is the message of the
      operating-system error; no file is removed;
    - it exits with status 0: the removal of the recorded file is the next
      event; a removal that succeeds is followed by the log line that names
      the base name of the new file and by [on_complete], a removal that
      fails by the failure with its message. *)
Theorem transcode_outcome_reported
    (w : world) (url output_dir selected_format : string)
    (with_subtitles with_thumbnail convert_to_mp4 : bool)
    (self : YtDlpDownloader) (p out : string) :
  let o := download_video w url output_dir selected_format with_subtitles
             with_thumbnail convert_to_mp4 self in
  let cbs := callbacks self in
  let mp4_file := fst (splitext_str p) +:+ ".mp4" in
  let cmd :=
    ffmpeg_cmd (negb (String.eqb (bytes_strip out) EmptyString)) p mp4_file in
  let failure := fun message =>
    (exists pre,
       events o = pre ++ SubprocessRun cmd :: deliver cbs (OnError message)) /\
    (forall path, OsRemove path ∉ events o) in
  Sleep 2 ∈ events o ->
  downloaded_file (self_after o) = VStr p ->
  lower (snd (splitext_str p)) <> ".mp4" ->
  completed (ffprobe_cmd p) false (run_process w (ffprobe_cmd p)) = inr out ->
  match run_process w cmd with
  | Exited status _ _ =>
      if (status =? 0)%N then
        exists pre,
          events o =
          pre ++ SubprocessRun cmd :: OsRemove p ::
          match remove_file w p with
          | None =>
              deliver cbs (LogMessage ("Converted to mp4: " +:+ basename_str mp4_file))
              ++ deliver cbs OnComplete
          | Some msg => deliver cbs (OnError msg)
          end
      else
        failure ("ffmpeg conversion failed: Command '" +:+ repr_list cmd +:+
                 "' returned non-zero exit status " +:+ pretty status +:+ ".")
  | Signalled sig _ _ =>
      failure ("ffmpeg conversion failed: Command '" +:+ repr_list cmd +:+
               "' died with " +:+ sig +:+ ".")
  | NotStarted msg => failure msg
  end.
Proof.
  cbv zeta. intros Hentered Hp Hext Hprobe.
  destruct (download_video_entered w url output_dir selected_format with_subtitles
              with_thumbnail convert_to_mp4 self Hentered)
    as (started & Hstarted & Hev).
  destruct (download_video_self_after w url output_dir selected_format
              with_subtitles with_thumbnail convert_to_mp4 self) as [_ Hcbs].
  rewrite Hev. clear Hev Hentered. rewrite Hp. clear Hp.
  rewrite convert_step_run. cbv zeta. rewrite Hcbs. clear Hcbs.
  apply String.eqb_neq in Hext. rewrite Hext.
  assert (Hout : match run_process w (ffprobe_cmd p) with
                 | Exited _ out' _ | Signalled _ out' _ => out' = out
                 | NotStarted _ => False
                 end).
  { apply completed_unchecked in Hprobe as (err & [[st ->] | [sig ->]]); reflexivity. }
  clear Hprobe.
  set (cmd := ffmpeg_cmd (negb (String.eqb (bytes_strip out) EmptyString)) p _).
  assert (Hno_remove : forall (path : string) (tail : list event),
            (forall e, e ∈ tail -> exists n, e = Callback n) ->
            OsRemove path ∉
              started ++ YdlLeave None ::
              ([Sleep 2; SubprocessRun (ffprobe_cmd p); SubprocessRun cmd] ++ tail)).
  { intros path tail Htail Hin. split_membership Hin.
    - revert Hin. apply started_not_transcode; [exact Hstarted | reflexivity].
    - destruct (Htail _ Hin) as [n Hn]. discriminate Hn. }
  assert (Hdeliver : forall n e, e ∈ deliver (callbacks self) n ++ [] -> exists n, e = Callback n).
  { intros n e He. rewrite app_nil_r in He. apply deliver_only_callback in He. eauto. }
  destruct (run_process w (ffprobe_cmd p)) as [st out' err | sig out' err | msg];
    [subst out' | subst out' | destruct Hout].
  all: fold cmd.
  all: destruct (run_process w cmd) as [status fout ferr | fsig fout ferr | fmsg];
    cbn [completed andb].
  all: try destruct (N.eqb_spec status 0) as [-> | Hstatus]; cbn [negb N.eqb].
  all: try (destruct (called_process_error_str cmd "returned non-zero exit status "
                        (pretty status)) as [-> ->]).
  all: try (destruct (called_process_error_str cmd "died with " fsig) as [-> ->]).
  all: cbn [is_SubprocessError exn_cls exn_str events result closing from_option].
  all: try destruct (remove_file w p) as [msg |];
    cbn [events result closing from_option exn_str].
  all: try (split;
            [ exists (started ++ [YdlLeave None; Sleep 2; SubprocessRun (ffprobe_cmd p)]);
              same_list
            | intros path; first [ apply (Hno_remove path); eapply Hdeliver
                                 | rewrite <- (app_nil_r (deliver _ _));
                                   apply (Hno_remove path); eapply Hdeliver ] ]).
  all: try (exists (started ++ [YdlLeave None; Sleep 2; SubprocessRun (ffprobe_cmd p)]);
            same_list).
Qed.

(** The scenario of C4: ffmpeg exits with status 1 on [clip.webm]; the
    failure is reported and the downloaded file stays. *)
Lemma transcode_outcome_reported_witness :
  (exists pre,
     events (Scenario.convert_request
               (Scenario.world_of "/tmp/out/clip.webm" "video"
                  (Exited 1 EmptyString Scenario.ffmpeg_diagnostic))) =
     pre ++
     [ SubprocessRun [ "ffmpeg"; "-y"; "-i"; "/tmp/out/clip.webm";
                       "-c:v"; "libx264"; "-preset"; "ultrafast";
                       "-c:a"; "copy"; "/tmp/out/clip.mp4" ];
       Callback (OnError
         "ffmpeg conversion failed: Command '['ffmpeg', '-y', '-i', '/tmp/out/clip.webm', '-c:v', 'libx264', '-preset', 'ultrafast', '-c:a', 'copy', '/tmp/out/clip.mp4']' returned non-zero exit status 1.") ]) /\
  (forall path,
     OsRemove path ∉
     events (Scenario.convert_request
               (Scenario.world_of "/tmp/out/clip.webm" "video"
                  (Exited 1 EmptyString Scenario.ffmpeg_diagnostic)))).
Proof.
  pose proof (transcode_outcome_reported
                (Scenario.world_of "/tmp/out/clip.webm" "video"
                   (Exited 1 EmptyString Scenario.ffmpeg_diagnostic))
                "https://example/video" "/tmp/out" "best" false false true
                Scenario.gui_downloader "/tmp/out/clip.webm" "video") as H.
  cbv zeta in H.
  assert (H1 : Sleep 2 ∈
            events (download_video
                      (Scenario.world_of "/tmp/out/clip.webm" "video"
                         (Exited 1 EmptyString Scenario.ffmpeg_diagnostic))
                      "https://example/video" "/tmp/out" "best" false false true
                      Scenario.gui_downloader)).
  { vm_compute. do 7 apply list_elem_of_further. apply list_elem_of_here. }
  specialize (H H1). clear H1.
  assert (H2 : downloaded_file
            (self_after (download_video
                      (Scenario.world_of "/tmp/out/clip.webm" "video"
                         (Exited 1 EmptyString Scenario.ffmpeg_diagnostic))
                      "https://example/video" "/tmp/out" "best" false false true
                      Scenario.gui_downloader)) = VStr "/tmp/out/clip.webm").
  { vm_compute. reflexivity. }
  specialize (H H2). clear H2.
  assert (H3 : lower (snd (splitext_str "/tmp/out/clip.webm")) <> ".mp4").
  { vm_compute. discriminate. }
  specialize (H H3 eq_refl). clear H3.
  exact H.
Defined.

(** ** C2, C3: the progress hook *)

Lemma rfind_bounds (s : string) (c : ascii) : -1 <= rfind s c.
Proof.
  induction s as [| a s IH]; simpl; [lia |].
  destruct (0 <=? rfind s c) eqn:Hj; [apply Z.leb_le in Hj; lia |].
  destruct (Ascii.eqb a c); lia.
Qed.

(** The base name is what follows the last [/] of the path: it has no [/]
    in it, and the path is a directory part, empty or ending in [/],
    followed by it. *)
Lemma basename_str_spec (p : string) :
  contains_char (basename_str p) "/" = false /\
  exists dir, p = dir +:+ basename_str p /\
              (dir = EmptyString \/ endswith_char dir "/" = true).
Proof.
  unfold basename_str. induction p as [| a p (Hno & dir & Hp & Hdir)].
  - split; [reflexivity |]. exists EmptyString. auto.
  - cbn [rfind]. pose proof (rfind_bounds p "/") as Hb.
    destruct (0 <=? rfind p "/") eqn:Hj.
    + apply Z.leb_le in Hj.
      rewrite (Z2Nat.inj_add (rfind p "/" + 1) 1) by lia.
      change (Z.to_nat 1) with 1%nat. rewrite Nat.add_1_r.
      cbn [slice_from]. split; [exact Hno |].
      exists (String a dir). split.
      * change (String a p = String a (dir +:+ slice_from p (Z.to_nat (rfind p "/" + 1)))).
        f_equal. exact Hp.
      * right. destruct Hdir as [-> | Hdir].
        -- exfalso. change (p = slice_from p (Z.to_nat (rfind p "/" + 1))) in Hp.
           assert (Hlen : forall (s : string) (n : nat),
                     String.length (slice_from s n) = (String.length s - n)%nat).
           { intros s. induction s as [| b s IHs]; intros [| n]; simpl; auto. }
           apply (f_equal String.length) in Hp. rewrite Hlen in Hp.
           assert (Hn : (1 <= Z.to_nat (rfind p "/" + 1))%nat) by lia.
           assert (Hzero : String.length p = 0%nat) by lia.
           destruct p as [| b p]; [simpl in Hj; lia | discriminate Hzero].
        -- destruct dir as [| d dir]; [discriminate Hdir |]. exact Hdir.
    + apply Z.leb_gt in Hj. assert (Hm : rfind p "/" = -1) by lia.
      rewrite Hm in Hno, Hp. cbn [Z.add Z.to_nat slice_from] in Hno, Hp.
      change (Z.to_nat (-1 + 1)) with 0%nat in Hno, Hp. cbn [slice_from] in Hno, Hp.
      destruct (Ascii.eqb a "/") eqn:Ha.
      * apply Ascii.eqb_eq in Ha as ->.
        change (Z.to_nat (0 + 1)) with 1%nat. cbn [slice_from].
        split; [exact Hno |]. exists "/". split; [reflexivity | right; reflexivity].
      * change (Z.to_nat (-1 + 1)) with 0%nat. cbn [slice_from].
        split; [cbn [contains_char]; rewrite Ha, Hno; reflexivity |].
        exists EmptyString. auto.
Qed.

Lemma getitem_run (d : gmap string value) (key : string) (v : value)
    (self : YtDlpDownloader) :
  d !! key = Some v -> getitem d key self = Outcome (inr v) self [].
Proof. intros H. unfold getitem. rewrite H. reflexivity. Qed.

(** C2, as stated, fails. For the payload of a finished file the hook
    calls the progress callback once, with the status [processing] and no
    data: no update says [finished] and none carries the path. *)
Lemma finished_payload_emits_processing :
  let tr := events (progress_hook {[ "status" := VStr "finished";
                                     "filename" := VStr "/tmp/out/clip.webm" ]}
                                  Scenario.gui_downloader) in
  tr = [ Callback (LogMessage "Download finished: clip.webm");
         Callback (UpdateProgress "processing" None) ] /\
  ~ emits_finished_event tr.
Proof.
  cbv zeta.
  assert (Htr : events (progress_hook {[ "status" := VStr "finished";
                                         "filename" := VStr "/tmp/out/clip.webm" ]}
                                      Scenario.gui_downloader) =
                [ Callback (LogMessage "Download finished: clip.webm");
                  Callback (UpdateProgress "processing" None) ])
    by (vm_compute; reflexivity).
  rewrite Htr. split; [reflexivity |].
  intros (data & Hin).
  repeat (apply elem_of_cons in Hin as [Hin | Hin]; [discriminate Hin |]).
  apply elem_of_nil in Hin. destruct Hin.
Qed.

(** C2, amended. For a payload whose status is [finished] and whose file
    name is a string [p] (the string ['Unknown'] when the payload has no
    name), the hook records [p] as the downloaded file, notifies the log line
    ["Download finished: "] followed by the base name of [p], and then
    notifies the progress update [processing], without data; it does not
    raise. The base name is the part of [p] after its last [/]. The window
    shows the progress bar and the label ["Post-processing..."] for that
    update. *)
Theorem progress_hook_finished
    (d : gmap string value) (self : YtDlpDownloader) (p : string)
    (g : Gui.YtDlpGui) :
  d !! "status" = Some (VStr "finished") ->
  get d "filename" (VStr "Unknown") = VStr p ->
  progress_hook d self =
    Outcome (inr tt)
      {| callbacks := callbacks self; downloaded_file := VStr p |}
      (deliver (callbacks self) (LogMessage ("Download finished: " +:+ basename_str p)) ++
       deliver (callbacks self) (UpdateProgress "processing" None)) /\
  contains_char (basename_str p) "/" = false /\
  (exists dir, p = dir +:+ basename_str p /\
               (dir = EmptyString \/ endswith_char dir "/" = true)) /\
  Gui.update_progress g "processing" None =
    inr (Gui.set_progress g true "Post-processing...").
Proof.
  intros Hstatus Hname.
  destruct (basename_str_spec p) as [Hno Hdir].
  split; [| split; [exact Hno | split; [exact Hdir | reflexivity]]].
  unfold progress_hook.
  rewrite bind_run, (getitem_run d "status" _ self Hstatus).
  cbn [result self_after events app].
  destruct (decide (VStr "finished" = VStr "downloading")) as [Heq | _];
    [discriminate Heq |].
  rewrite bind_run, (getitem_run d "status" _ self Hstatus).
  cbn [result self_after events app].
  destruct (decide (VStr "finished" = VStr "finished")) as [_ | Hne];
    [| destruct Hne; reflexivity].
  rewrite Hname. unfold log_message, update_progress.
  rewrite bind_run. cbn [set_downloaded_file result self_after events app].
  rewrite bind_run. cbn [basename lift mret M_ret result self_after events app].
  rewrite bind_run, !notify_run. cbn [result self_after events callbacks app].
  reflexivity.
Qed.

(** The payload of a finished [clip.webm]. *)
Lemma progress_hook_finished_witness :
  progress_hook {[ "status" := VStr "finished";
                   "filename" := VStr "/tmp/out/clip.webm" ]}
                Scenario.gui_downloader =
  Outcome (inr tt)
    {| callbacks := Gui.signals; downloaded_file := VStr "/tmp/out/clip.webm" |}
    [ Callback (LogMessage "Download finished: clip.webm");
      Callback (UpdateProgress "processing" None) ].
Proof.
  destruct (progress_hook_finished
              {[ "status" := VStr "finished";
                 "filename" := VStr "/tmp/out/clip.webm" ]}
              Scenario.gui_downloader "/tmp/out/clip.webm" Gui.new)
    as [Hrun _]; [reflexivity | reflexivity |].
  rewrite Hrun. vm_compute. reflexivity.
Defined.

(** C3, as stated, fails. The hook reads [d['status']] before anything
    else and outside the [try]: a payload without that key makes it raise
    [KeyError]. After a finished payload whose file name is not a string it
    raises [TypeError], from [os.path.basename]. *)
Lemma progress_hook_raises :
  result (progress_hook ∅ Scenario.gui_downloader) =
    inl (Exn KeyError "'status'") /\
  result (progress_hook {[ "status" := VStr "finished"; "filename" := VNone ]}
                        Scenario.gui_downloader) =
    inl (Exn TypeError "expected str, bytes or os.PathLike object, not NoneType") /\
  ~ (forall (d : gmap string value) (self : YtDlpDownloader),
       result (progress_hook d self) = inr tt).
Proof.
  split; [vm_compute; reflexivity |]. split; [vm_compute; reflexivity |].
  intros Hnever. specialize (Hnever ∅ Scenario.gui_downloader).
  vm_compute in Hnever. discriminate Hnever.
Qed.

(** C3, amended. For a payload that has a status:
    - [downloading]: the hook does not raise and notifies one progress
      update [downloading] whose [percent], [speed] and [eta] are the
      payload's [_percent_str], [_speed_str] and [_eta_str], each replaced by
      the string ["N/A"] when the payload lacks the key; a key that is there
      is passed on with the value it holds, and the update is not skipped;
    - [finished] with a string for the file name, or without one: the hook
      does not raise;
    - any other status: the hook does nothing.
    In the first and the last case the downloader object is left as it is. *)
Theorem progress_hook_with_status
    (d : gmap string value) (self : YtDlpDownloader) (status : value) :
  d !! "status" = Some status ->
  let field := fun key => default (VStr "N/A") (d !! key) in
  let progress_data : gmap string value :=
    {[ "eta" := field "_eta_str";
       "speed" := field "_speed_str";
       "percent" := field "_percent_str" ]} in
  (status = VStr "downloading" ->
   progress_hook d self =
     Outcome (inr tt) self
       (deliver (callbacks self) (UpdateProgress "downloading" (Some progress_data)))) /\
  (status = VStr "finished" ->
   forall p, get d "filename" (VStr "Unknown") = VStr p ->
   result (progress_hook d self) = inr tt) /\
  (status <> VStr "downloading" -> status <> VStr "finished" ->
   progress_hook d self = Outcome (inr tt) self []).
Proof.
  intros Hstatus. cbv zeta.
  assert (Hrun : progress_hook d self =
            if decide (status = VStr "downloading") then
              Outcome (inr tt) self
                (deliver (callbacks self)
                   (UpdateProgress "downloading"
                      (Some (<["eta" := get d "_eta_str" (VStr "N/A")]>
                               (<["speed" := get d "_speed_str" (VStr "N/A")]>
                                  (<["percent" := get d "_percent_str" (VStr "N/A")]> ∅))))))
            else if decide (status = VStr "finished") then
              ((let filename := get d "filename" (VStr "Unknown") in
                set_downloaded_file filename;;
                name ← lift (basename filename);
                log_message ("Download finished: " +:+ name);;
                update_progress "processing" None) self)
            else Outcome (inr tt) self []).
  { unfold progress_hook.
    rewrite bind_run, (getitem_run d "status" _ self Hstatus).
    cbn [result self_after events app].
    destruct (decide (status = VStr "downloading")).
    - unfold try_except, update_progress. rewrite notify_run.
      cbn [result]. reflexivity.
    - rewrite bind_run, (getitem_run d "status" _ self Hstatus).
      cbn [result self_after events app].
      destruct (decide (status = VStr "finished")); reflexivity. }
  rewrite Hrun. clear Hrun. repeat split.
  - intros ->. rewrite decide_True by reflexivity. reflexivity.
  - intros -> p Hname.
    rewrite decide_False by discriminate. rewrite decide_True by reflexivity.
    cbv zeta. rewrite Hname. unfold log_message, update_progress.
    rewrite bind_run. cbn [set_downloaded_file result self_after events app].
    rewrite bind_run. cbn [basename lift mret M_ret result self_after events app].
    rewrite bind_run, !notify_run. reflexivity.
  - intros Hd Hf. rewrite !decide_False by assumption. reflexivity.
Qed.

(** A payload of a download in progress that has no estimate yet. *)
Lemma progress_hook_with_status_witness :
  progress_hook {[ "status" := VStr "downloading";
                   "_percent_str" := VStr " 50.0%";
                   "_speed_str" := VStr "1.00MiB/s" ]}
                Scenario.gui_downloader =
  Outcome (inr tt) Scenario.gui_downloader
    [ Callback (UpdateProgress "downloading"
                  (Some {[ "percent" := VStr " 50.0%";
                           "speed" := VStr "1.00MiB/s";
                           "eta" := VStr "N/A" ]})) ].
Proof.
  destruct (progress_hook_with_status
              {[ "status" := VStr "downloading";
                 "_percent_str" := VStr " 50.0%";
                 "_speed_str" := VStr "1.00MiB/s" ]}
              Scenario.gui_downloader (VStr "downloading"))
    as [Hrun _]; [vm_compute; reflexivity |].
  rewrite (Hrun eq_refl). vm_compute. reflexivity.
Defined.

(** * Properties of the rest of the code *)

(** ** Requests do not see each other *)

Lemma download_video_from_reset
    (w : world) (url output_dir selected_format : string)
    (with_subtitles with_thumbnail convert_to_mp4 : bool)
    (self : YtDlpDownloader) :
  download_video w url output_dir selected_format with_subtitles with_thumbnail
    convert_to_mp4 self =
  download_video w url output_dir selected_format with_subtitles with_thumbnail
    convert_to_mp4 (reset self).
Proof. rewrite !download_video_run. reflexivity. Qed.

(** X1. A request does not depend on the file a previous request
    recorded: two downloader objects with the same bag of callbacks run the
    same request to the same outcome, event for event. *)
Theorem download_video_forgets_recorded_file
    (w : world) (url output_dir selected_format : string)
    (with_subtitles with_thumbnail convert_to_mp4 : bool)
    (self1 self2 : YtDlpDownloader) :
  callbacks self1 = callbacks self2 ->
  download_video w url output_dir selected_format with_subtitles with_thumbnail
    convert_to_mp4 self1 =
  download_video w url output_dir selected_format with_subtitles with_thumbnail
    convert_to_mp4 self2.
Proof.
  intros Hcbs. rewrite !download_video_run. cbv zeta.
  unfold reset. rewrite Hcbs. reflexivity.
Qed.

(** After a request that recorded [clip.webm], the same request again. *)
Lemma download_video_forgets_recorded_file_witness :
  download_video
    (Scenario.world_of "/tmp/out/clip.webm" "video" (Exited 0 EmptyString EmptyString))
    "https://example/video" "/tmp/out" "best" false false true
    Scenario.gui_downloader =
  download_video
    (Scenario.world_of "/tmp/out/clip.webm" "video" (Exited 0 EmptyString EmptyString))
    "https://example/video" "/tmp/out" "best" false false true
    {| callbacks := Gui.signals; downloaded_file := VStr "/tmp/out/previous.webm" |}.
Proof.
  refine (download_video_forgets_recorded_file
            (Scenario.world_of "/tmp/out/clip.webm" "video"
               (Exited 0 EmptyString EmptyString))
            "https://example/video" "/tmp/out" "best" false false true
            Scenario.gui_downloader
            {| callbacks := Gui.signals;
               downloaded_file := VStr "/tmp/out/previous.webm" |} _).
  reflexivity.
Defined.

(** ** The callbacks only observe *)

Lemma observe_app (cbs : gset string) (tr1 tr2 : list event) :
  observe cbs (tr1 ++ tr2) = observe cbs tr1 ++ observe cbs tr2.
Proof. apply List.filter_app. Qed.

Lemma observe_deliver (cbs1 cbs2 : gset string) (n : notification) :
  cbs1 ⊆ cbs2 -> deliver cbs1 n = observe cbs1 (deliver cbs2 n).
Proof.
  intros Hsub. unfold deliver.
  destruct (decide (callback_key n ∈ cbs2)) as [Hin2 | Hout2]; simpl.
  - destruct (decide (callback_key n ∈ cbs1)) as [Hin1 | Hout1].
    + rewrite bool_decide_eq_true_2 by exact Hin1. reflexivity.
    + rewrite bool_decide_eq_false_2 by exact Hout1. reflexivity.
  - rewrite decide_False; [reflexivity |]. intros Hin1. apply Hout2, Hsub, Hin1.
Qed.

Lemma unaffected_silent {A : Type} (m : M A) (r : YtDlpDownloader -> exn + A)
    (e : list event) :
  (forall self, m self = Outcome (r self) self e) ->
  (forall s1 s2, downloaded_file s1 = downloaded_file s2 -> r s1 = r s2) ->
  Forall (fun x => forall cbs, allowed cbs x = true) e ->
  unaffected m.
Proof.
  intros Hm Hr He s1 s2 Hfile Hsub. rewrite !Hm. cbn [result self_after events].
  repeat split; auto.
  unfold observe. clear Hm. induction He as [| x e Hx _ IH]; [reflexivity |].
  cbn [List.filter]. rewrite Hx. f_equal. exact IH.
Qed.

Lemma unaffected_ret {A : Type} (a : A) : unaffected (mret a : M A).
Proof.
  apply (unaffected_silent _ (fun _ => inr a) []); [reflexivity | reflexivity | constructor].
Qed.

Lemma unaffected_raise {A : Type} (e : exn) : unaffected (@raise A e).
Proof.
  apply (unaffected_silent _ (fun _ => inl e) []); [reflexivity | reflexivity | constructor].
Qed.

Lemma unaffected_lift {A : Type} (r : exn + A) : unaffected (lift r).
Proof. destruct r; [apply unaffected_raise | apply unaffected_ret]. Qed.

Lemma unaffected_emit (e : event) :
  (forall cbs, allowed cbs e = true) -> unaffected (emit e).
Proof.
  intros He. apply (unaffected_silent _ (fun _ => inr tt) [e]);
    [reflexivity | reflexivity | repeat constructor; exact He].
Qed.

Lemma unaffected_get_downloaded_file : unaffected get_downloaded_file.
Proof.
  apply (unaffected_silent _ (fun self => inr (downloaded_file self)) []);
    [reflexivity | intros s1 s2 ->; reflexivity | constructor].
Qed.

Lemma unaffected_set_downloaded_file (v : value) : unaffected (set_downloaded_file v).
Proof. intros s1 s2 _ _. repeat split. Qed.

Lemma unaffected_notify (n : notification) : unaffected (notify n).
Proof.
  intros s1 s2 Hfile Hsub. rewrite !notify_run. cbn [result self_after events].
  repeat split; auto. apply observe_deliver, Hsub.
Qed.

Lemma unaffected_bind {A B : Type} (m : M A) (f : A -> M B) :
  unaffected m -> (forall a, unaffected (f a)) -> unaffected (m ≫= f).
Proof.
  intros Hm Hf s1 s2 Hfile Hsub. rewrite !bind_run.
  destruct (Hm s1 s2 Hfile Hsub) as (Hr & Hd & Hc1 & Hc2 & He).
  rewrite Hr. destruct (result (m s2)) as [e | a]; cbn [result self_after events].
  { repeat split; assumption. }
  assert (Hsub' : callbacks (self_after (m s1)) ⊆ callbacks (self_after (m s2)))
    by (rewrite Hc1, Hc2; exact Hsub).
  destruct (Hf a _ _ Hd Hsub') as (Hr' & Hd' & Hc1' & Hc2' & He').
  repeat split; try congruence.
  rewrite observe_app, He, He', Hc1. reflexivity.
Qed.

Lemma unaffected_try_except {A : Type} (body : M A) (catches : exn -> bool)
    (handler : exn -> M A) :
  unaffected body -> (forall e, unaffected (handler e)) ->
  unaffected (try_except body catches handler).
Proof.
  intros Hb Hh s1 s2 Hfile Hsub. rewrite !try_except_run.
  destruct (Hb s1 s2 Hfile Hsub) as (Hr & Hd & Hc1 & Hc2 & He).
  rewrite Hr. destruct (result (body s2)) as [e | a] eqn:Hres.
  2: { rewrite Hr, Hres. repeat split; assumption. }
  destruct (catches e).
  2: { rewrite Hr, Hres. repeat split; assumption. }
  cbn [result self_after events].
  assert (Hsub' : callbacks (self_after (body s1)) ⊆ callbacks (self_after (body s2)))
    by (rewrite Hc1, Hc2; exact Hsub).
  destruct (Hh e _ _ Hd Hsub') as (Hr' & Hd' & Hc1' & Hc2' & He').
  repeat split; try congruence.
  rewrite observe_app, He, He', Hc1. reflexivity.
Qed.

Lemma unaffected_attempt (m : M unit) : unaffected m -> unaffected (attempt m).
Proof.
  intros Hm s1 s2 Hfile Hsub.
  destruct (Hm s1 s2 Hfile Hsub) as (Hr & Hd & Hc1 & Hc2 & He).
  unfold attempt. cbn [result self_after events]. rewrite Hr.
  repeat split; assumption.
Qed.

Lemma unaffected_pass : unaffected pass.
Proof. apply unaffected_ret. Qed.

Lemma unaffected_logger (lvl : level) (msg : string) :
  unaffected (CustomLogger.call lvl msg).
Proof.
  destruct lvl; simpl; unfold CustomLogger.debug, CustomLogger.info,
    CustomLogger.warning, CustomLogger.error, log_message;
    try destruct (negb _); auto using unaffected_notify, unaffected_pass.
Qed.

Lemma unaffected_getitem (d : gmap string value) (key : string) :
  unaffected (getitem d key).
Proof.
  unfold getitem. destruct (d !! key); [apply unaffected_ret | apply unaffected_raise].
Qed.

Lemma unaffected_progress_hook (d : gmap string value) : unaffected (progress_hook d).
Proof.
  unfold progress_hook, update_progress, log_message.
  apply unaffected_bind; [apply unaffected_getitem | intros status].
  destruct (decide _).
  - apply unaffected_try_except; [apply unaffected_notify | intros _; apply unaffected_pass].
  - apply unaffected_bind; [apply unaffected_getitem | intros status'].
    destruct (decide _); [| apply unaffected_pass].
    apply unaffected_bind; [apply unaffected_set_downloaded_file | intros _].
    apply unaffected_bind; [apply unaffected_lift | intros name].
    apply unaffected_bind; [apply unaffected_notify | intros _].
    apply unaffected_notify.
Qed.

Lemma unaffected_ydl_call (y : ydl_run) : unaffected (ydl_call y).
Proof.
  induction y as [| e | d k IH | lvl msg k IH]; simpl.
  - apply unaffected_pass.
  - apply unaffected_raise.
  - apply unaffected_bind;
      [apply unaffected_attempt, unaffected_progress_hook | intros r; apply IH].
  - apply unaffected_bind; [apply unaffected_logger | intros _; apply IH].
Qed.

Lemma unaffected_ydl_download_urls (w : world) (opts : gmap string optvalue)
    (urls : list string) :
  unaffected (ydl_download_urls w opts urls).
Proof.
  unfold ydl_download_urls.
  apply unaffected_bind; [apply unaffected_emit; reflexivity | intros _].
  apply unaffected_bind; [apply unaffected_attempt, unaffected_ydl_call | intros r].
  apply unaffected_bind; [apply unaffected_emit; reflexivity | intros _].
  destruct r; [apply unaffected_raise | apply unaffected_pass].
Qed.

Lemma unaffected_subprocess_run (w : world) (cmd : list string) (check : bool) :
  unaffected (subprocess_run w cmd check).
Proof.
  unfold subprocess_run.
  apply unaffected_bind; [apply unaffected_emit; reflexivity | intros _].
  apply unaffected_lift.
Qed.

Lemma unaffected_os_remove (w : world) (path : string) :
  unaffected (os_remove w path).
Proof.
  unfold os_remove.
  apply unaffected_bind; [apply unaffected_emit; reflexivity | intros _].
  destruct (remove_file w path); [apply unaffected_raise | apply unaffected_pass].
Qed.

Lemma unaffected_convert_step (w : world) (file : value) :
  unaffected (convert_step w file).
Proof.
  unfold convert_step, sleep, log_message, on_error.
  apply unaffected_bind; [apply unaffected_emit; reflexivity | intros _].
  apply unaffected_bind; [apply unaffected_lift | intros [base ext]].
  destruct file; try apply unaffected_raise.
  destruct (negb _); [| apply unaffected_ret].
  apply unaffected_try_except.
  - apply unaffected_bind; [apply unaffected_subprocess_run | intros out].
    apply unaffected_bind; [apply unaffected_subprocess_run | intros _].
    apply unaffected_bind; [apply unaffected_os_remove | intros _].
    apply unaffected_bind; [apply unaffected_notify | intros _].
    apply unaffected_ret.
  - intros e. apply unaffected_bind; [apply unaffected_notify | intros _].
    apply unaffected_ret.
Qed.

Lemma unaffected_download_video (w : world) (url output_dir selected_format : string)
    (with_subtitles with_thumbnail convert_to_mp4 : bool) :
  unaffected (download_video w url output_dir selected_format with_subtitles
                with_thumbnail convert_to_mp4).
Proof.
  unfold download_video, log_message, on_complete, on_error. cbv zeta.
  apply unaffected_try_except; [| intros e; apply unaffected_notify].
  apply unaffected_bind; [apply unaffected_notify | intros _].
  apply unaffected_bind; [apply unaffected_set_downloaded_file | intros _].
  apply unaffected_bind; [apply unaffected_ydl_download_urls | intros _].
  apply unaffected_bind; [apply unaffected_get_downloaded_file | intros file].
  apply unaffected_bind.
  - destruct (_ && _ && _); [apply unaffected_convert_step | apply unaffected_ret].
  - intros [|]; [apply unaffected_notify | apply unaffected_pass].
Qed.



(** X3. A request calls no function that is not in the bag: every callback
    in its trace was registered under its key. A downloader made without
    callbacks calls none. *)
Theorem download_video_calls_registered_only
    (w : world) (url output_dir selected_format : string)
    (with_subtitles with_thumbnail convert_to_mp4 : bool)
    (self : YtDlpDownloader) :
  let tr := events (download_video w url output_dir selected_format with_subtitles
                      with_thumbnail convert_to_mp4 self) in
  (forall n, Callback n ∈ tr -> callback_key n ∈ callbacks self) /\
  (callbacks self = ∅ -> Forall (fun e => is_external_call e = true) tr).
Proof.
  cbv zeta.
  rewrite (download_video_from_reset w url output_dir selected_format
             with_subtitles with_thumbnail convert_to_mp4 self).
  destruct (unaffected_download_video w url output_dir selected_format
              with_subtitles with_thumbnail convert_to_mp4
              (reset self) (reset self) eq_refl (reflexivity _))
    as (_ & _ & _ & _ & He).
  change (callbacks (reset self)) with (callbacks self) in He.
  assert (Hall : Forall (fun e => allowed (callbacks self) e = true)
                   (events (download_video w url output_dir selected_format
                              with_subtitles with_thumbnail convert_to_mp4
                              (reset self)))).
  { rewrite He. unfold observe. apply Forall_forall. intros e Hin.
    apply list_elem_of_In, List.filter_In in Hin. apply Hin. }
  split.
  - intros n Hin. rewrite Forall_forall in Hall. specialize (Hall _ Hin).
    cbn [allowed] in Hall. apply bool_decide_eq_true in Hall. exact Hall.
  - intros Hempty. eapply Forall_impl; [exact Hall |].
    intros [n | | | | |] Hn; try reflexivity.
    cbn [allowed] in Hn. apply bool_decide_eq_true in Hn.
    rewrite Hempty in Hn. apply not_elem_of_empty in Hn. destruct Hn.
Qed.

(** A downloader made with [YtDlpDownloader()]. *)
Lemma download_video_calls_registered_only_witness :
  Forall (fun e => is_external_call e = true)
    (events (download_video
               (Scenario.world_of "/tmp/out/clip.webm" "video"
                  (Exited 0 EmptyString EmptyString))
               "https://example/video" "/tmp/out" "best" false false true
               (init None))).
Proof.
  refine (proj2 (download_video_calls_registered_only
            (Scenario.world_of "/tmp/out/clip.webm" "video"
               (Exited 0 EmptyString EmptyString))
            "https://example/video" "/tmp/out" "best" false false true
            (init None)) _).
  reflexivity.
Defined.

(** ** A download that fails *)

(** X4. When the download call raises [e], the request ends with the
    failure [str(e)] right after the call: nothing of the transcode step
    happens, whatever the format and the conversion flag, and [on_complete]
    is not called. *)
Theorem download_failure_reported
    (w : world) (url output_dir selected_format : string)
    (with_subtitles with_thumbnail convert_to_mp4 : bool)
    (self : YtDlpDownloader) (e : exn) :
  let o := download_video w url output_dir selected_format with_subtitles
             with_thumbnail convert_to_mp4 self in
  YdlLeave (Some e) ∈ events o ->
  (exists started,
     Forall (fun x => is_started_event x = true) started /\
     events o = started ++
                YdlLeave (Some e) :: deliver (callbacks self) (OnError (exn_str e))) /\
  Forall (fun x => is_transcode_event x = false) (events o) /\
  Callback OnComplete ∉ events o.
Proof.
  cbv zeta. rewrite download_video_run. cbv zeta.
  set (opts := ydl_opts _ _ _ _).
  destruct (ydl_call_hook_events (ydl_download w opts [url]) (reset self))
    as [Hcbs Hhooks].
  change (callbacks (reset self)) with (callbacks self) in Hcbs.
  set (o := ydl_call (ydl_download w opts [url]) (reset self)) in *.
  pose proof (started_events (callbacks self)
                ("Starting download of " +:+ url) opts [url] _ Hhooks) as Hstarted.
  set (started := deliver (callbacks self) _ ++ YdlEnter opts [url] :: events o) in *.
  clearbody started.
  destruct (result o) as [e' | []]; cbn [events].
  - rewrite Hcbs. intros Hin.
    assert (e' = e) as ->.
    { split_membership Hin.
      - exfalso. revert Hin. apply started_not_left. exact Hstarted.
      - injection Hin as ->. reflexivity. }
    split; [exists started; auto |]. split.
    + apply Forall_app; split.
      * eapply Forall_impl; [exact Hstarted |].
        intros [[| | |] | | | | |] Hx; (reflexivity || discriminate Hx).
      * constructor; [reflexivity | apply deliver_no_transcode].
    + intros Hc. split_membership Hc. revert Hc.
      apply (not_in_by is_started_event); [exact Hstarted | reflexivity].
  - pose proof (convert_step_block_events w (downloaded_file (self_after o))
                  (self_after o)) as Hblock.
    set (block := convert_step w (downloaded_file (self_after o)) (self_after o)) in *.
    clearbody block.
    destruct (bool_decide _ && convert_to_mp4 && truthy _); cbn [events];
      intros Hin; exfalso.
    + destruct (closing _) as [t |]; cbn [from_option] in Hin; split_membership Hin.
      all: try (revert Hin; apply started_not_left; exact Hstarted).
      all: revert Hin; apply (not_in_by is_block_event); [exact Hblock | reflexivity].
    + split_membership Hin. revert Hin. apply started_not_left. exact Hstarted.
Qed.

(** ** What the transcode step removes *)

Lemma slice_to_from (s : string) (n : nat) : slice_to s n +:+ slice_from s n = s.
Proof.
  revert s. induction n as [| n IH]; intros s; [reflexivity |].
  destruct s as [| a s]; [reflexivity |]. cbn [slice_to slice_from].
  change (String a (slice_to s n +:+ slice_from s n) = String a s).
  rewrite IH. reflexivity.
Qed.

(** [os.path.splitext] cuts the path in two. *)
Lemma splitext_str_app (p : string) :
  fst (splitext_str p) +:+ snd (splitext_str p) = p.
Proof.
  unfold splitext_str. destruct (_ && _); cbn [fst snd].
  - apply slice_to_from.
  - induction p as [| a p IH]; [reflexivity |].
    change (String a (p +:+ EmptyString) = String a p). rewrite IH. reflexivity.
Qed.

(** The file the conversion writes is not the file it reads. *)
Lemma mp4_file_differs (p : string) :
  lower (snd (splitext_str p)) <> ".mp4" ->
  fst (splitext_str p) +:+ ".mp4" <> p.
Proof.
  intros Hext Heq. apply Hext.
  rewrite <- (splitext_str_app p) in Heq at 2.
  apply (inj (String.append _)) in Heq. rewrite <- Heq. reflexivity.
Qed.

(** X5. A request removes a file only at the end of a conversion that
    worked: the file removed is the recorded download, the probe of it was
    started, the conversion command chosen from the probe's output was run
    and exited with status 0, and the file that command wrote is another file
    than the one removed. *)
Theorem removal_only_after_conversion
    (w : world) (url output_dir selected_format : string)
    (with_subtitles with_thumbnail convert_to_mp4 : bool)
    (self : YtDlpDownloader) (path : string) :
  let o := download_video w url output_dir selected_format with_subtitles
             with_thumbnail convert_to_mp4 self in
  let mp4_file := fst (splitext_str path) +:+ ".mp4" in
  OsRemove path ∈ events o ->
  downloaded_file (self_after o) = VStr path /\
  mp4_file <> path /\
  exists out,
    completed (ffprobe_cmd path) false (run_process w (ffprobe_cmd path)) = inr out /\
    let cmd :=
      ffmpeg_cmd (negb (String.eqb (bytes_strip out) EmptyString)) path mp4_file in
    SubprocessRun cmd ∈ events o /\
    exists stdout stderr, run_process w cmd = Exited 0 stdout stderr.
Proof.
  cbv zeta.
  destruct (download_video_shape w url output_dir selected_format with_subtitles
              with_thumbnail convert_to_mp4 self)
    as (started & r & Hstarted & [[Htest Hev] | [Htest (t & Ht & Hev)]]);
    cbv zeta in *; rewrite Hev; clear Hev.
  2: { intros Hin. exfalso. split_membership Hin. revert Hin.
       apply started_not_transcode; [exact Hstarted | reflexivity]. }
  destruct (downloaded_file _) as [| b | z | p] eqn:Hrec.
  1-3: intros Hin; exfalso; cbn [events result closing from_option] in Hin;
       split_membership Hin; revert Hin;
       apply started_not_transcode; [exact Hstarted | reflexivity].
  rewrite convert_step_run. cbv zeta.
  destruct (String.eqb (lower (snd (splitext_str p))) ".mp4") eqn:Hext.
  { intros Hin; exfalso; cbn [events result closing from_option] in Hin;
      split_membership Hin; revert Hin;
      apply started_not_transcode; [exact Hstarted | reflexivity]. }
  apply String.eqb_neq in Hext.
  assert (Hstart : forall e, is_transcode_event e = true -> e ∈ started -> False).
  { intros e He Hin. revert Hin. apply started_not_transcode; assumption. }
  destruct (run_process w (ffprobe_cmd p)) as [st out err | sig out err | msg] eqn:Hprobe.
  3: { intros Hin; exfalso; cbn [events result closing from_option] in Hin;
         split_membership Hin; eapply Hstart; [| exact Hin]; reflexivity. }
  all: set (cmd := ffmpeg_cmd _ p _).
  all: destruct (run_process w cmd) as [status fout ferr | fsig fout ferr | fmsg] eqn:Hrun;
    cbn [completed andb].
  all: try destruct (N.eqb_spec status 0) as [-> | Hstatus]; cbn [negb N.eqb].
  all: cbn [is_SubprocessError called_process_error exn_cls].
  all: try destruct (remove_file w p) as [msg |].
  all: cbn [events result closing from_option app]; intros Hin.
  all: split_membership Hin; try (exfalso; eapply Hstart; [| exact Hin]; reflexivity).
  all: injection Hin as ->.
  all: split; [reflexivity |]; split; [apply mp4_file_differs; exact Hext |].
  all: exists out; rewrite Hprobe; split; [reflexivity |]; cbv zeta; fold cmd.
  all: split; [| rewrite Hrun; eauto].
  all: apply elem_of_app; right; do 3 (apply elem_of_cons; right);
       apply elem_of_cons; left; reflexivity.
Qed.

(** The scenario of the conversion that works: [clip.webm] is removed. *)
Lemma removal_only_after_conversion_witness :
  downloaded_file
    (self_after (Scenario.convert_request
                   (Scenario.world_of "/tmp/out/clip.webm" "video"
                      (Exited 0 EmptyString EmptyString)))) =
    VStr "/tmp/out/clip.webm" /\
  fst (splitext_str "/tmp/out/clip.webm") +:+ ".mp4" <> "/tmp/out/clip.webm".
Proof.
  destruct (removal_only_after_conversion
              (Scenario.world_of "/tmp/out/clip.webm" "video"
                 (Exited 0 EmptyString EmptyString))
              "https://example/video" "/tmp/out" "best" false false true
              Scenario.gui_downloader "/tmp/out/clip.webm")
    as (Hrec & Hdiff & _).
  - vm_compute. do 10 apply list_elem_of_further. apply list_elem_of_here.
  - split; [exact Hrec | exact Hdiff].
Defined.

(** The downloader refuses the URL: the request fails at once. *)
Lemma download_failure_reported_witness :
  Forall (fun x => is_transcode_event x = false)
    (events (download_video Situation.unsupported_url
               "https://example/video" "/tmp/out" "best" false false true
               Scenario.gui_downloader)).
Proof.
  refine (proj1 (proj2 (download_failure_reported Situation.unsupported_url
            "https://example/video" "/tmp/out" "best" false false true
            Scenario.gui_downloader
            (Exn OtherException "ERROR: Unsupported URL: https://example/video") _))).
  vm_compute. do 3 apply list_elem_of_further. apply list_elem_of_here.
Defined.

(** ** A probe that cannot be started *)

(** X6. When the probe cannot be started (an [OSError], as for a missing
    [ffprobe]), the transcode step ends there: no conversion is run, nothing
    is removed, and the failure notified is the message of the error as it
    is, without the words ["ffmpeg conversion failed"]. *)
Theorem probe_not_started
    (w : world) (url output_dir selected_format : string)
    (with_subtitles with_thumbnail convert_to_mp4 : bool)
    (self : YtDlpDownloader) (p msg : string) :
  let o := download_video w url output_dir selected_format with_subtitles
             with_thumbnail convert_to_mp4 self in
  Sleep 2 ∈ events o ->
  downloaded_file (self_after o) = VStr p ->
  lower (snd (splitext_str p)) <> ".mp4" ->
  run_process w (ffprobe_cmd p) = NotStarted msg ->
  exists started,
    Forall (fun e => is_started_event e = true) started /\
    events o =
      started ++ [YdlLeave None; Sleep 2; SubprocessRun (ffprobe_cmd p)] ++
      deliver (callbacks self) (OnError msg).
Proof.
  cbv zeta. intros Hentered Hp Hext Hprobe.
  destruct (download_video_entered w url output_dir selected_format with_subtitles
              with_thumbnail convert_to_mp4 self Hentered)
    as (started & Hstarted & Hev).
  exists started. split; [exact Hstarted |].
  rewrite Hev. clear Hev Hentered. rewrite Hp. clear Hp.
  rewrite convert_step_run. cbv zeta.
  apply String.eqb_neq in Hext. rewrite Hext, Hprobe.
  cbn [events result closing from_option exn_str app]. reflexivity.
Qed.

(** No program can be started after the download of [clip.webm]. *)
Lemma probe_not_started_witness :
  exists started,
    events (download_video Situation.no_programs
              "https://example/video" "/tmp/out" "best" false false true
              Scenario.gui_downloader) =
    started ++
    [ YdlLeave None; Sleep 2; SubprocessRun (ffprobe_cmd "/tmp/out/clip.webm");
      Callback (OnError "[Errno 2] No such file or directory: 'ffprobe'") ].
Proof.
  destruct (probe_not_started Situation.no_programs
              "https://example/video" "/tmp/out" "best" false false true
              Scenario.gui_downloader "/tmp/out/clip.webm"
              "[Errno 2] No such file or directory: 'ffprobe'")
    as (started & _ & Hev).
  - vm_compute. do 7 apply list_elem_of_further. apply list_elem_of_here.
  - vm_compute. reflexivity.
  - vm_compute. discriminate.
  - reflexivity.
  - exists started. exact Hev.
Defined.

(** ** Which file is recorded *)

Lemma logger_self_after (lvl : level) (msg : string) (self : YtDlpDownloader) :
  self_after (CustomLogger.call lvl msg self) = self.
Proof.
  destruct lvl; simpl; unfold CustomLogger.debug, CustomLogger.info,
    CustomLogger.warning, CustomLogger.error, log_message;
    try destruct (negb _); rewrite ?notify_run; reflexivity.
Qed.

Lemma logger_result (lvl : level) (msg : string) (self : YtDlpDownloader) :
  result (CustomLogger.call lvl msg self) = inr tt.
Proof.
  destruct lvl; simpl; unfold CustomLogger.debug, CustomLogger.info,
    CustomLogger.warning, CustomLogger.error, log_message;
    try destruct (negb _); rewrite ?notify_run; reflexivity.
Qed.

(** The hook in all its cases. *)
Lemma progress_hook_run (d : gmap string value) (self : YtDlpDownloader) :
  progress_hook d self =
  match d !! "status" with
  | None => Outcome (inl (Exn KeyError "'status'")) self []
  | Some status =>
      if decide (status = VStr "downloading") then
        Outcome (inr tt) self
          (deliver (callbacks self)
             (UpdateProgress "downloading"
                (Some (<["eta" := get d "_eta_str" (VStr "N/A")]>
                         (<["speed" := get d "_speed_str" (VStr "N/A")]>
                            (<["percent" := get d "_percent_str" (VStr "N/A")]> ∅))))))
      else if decide (status = VStr "finished") then
        let filename := get d "filename" (VStr "Unknown") in
        let recorded := {| callbacks := callbacks self; downloaded_file := filename |} in
        match filename with
        | VStr p =>
            Outcome (inr tt) recorded
              (deliver (callbacks self)
                 (LogMessage ("Download finished: " +:+ basename_str p)) ++
               deliver (callbacks self) (UpdateProgress "processing" None))
        | _ => Outcome (inl (not_a_path filename)) recorded []
        end
      else Outcome (inr tt) self []
  end.
Proof.
  unfold progress_hook. rewrite bind_run.
  destruct (d !! "status") as [status |] eqn:Hstatus;
    [| unfold getitem; rewrite Hstatus; reflexivity].
  rewrite (getitem_run d "status" _ self Hstatus).
  cbn [result self_after events app].
  destruct (decide (status = VStr "downloading")).
  - unfold try_except, update_progress. rewrite notify_run. reflexivity.
  - rewrite bind_run, (getitem_run d "status" _ self Hstatus).
    cbn [result self_after events app].
    destruct (decide (status = VStr "finished")); [| reflexivity].
    cbv zeta. unfold log_message, update_progress.
    rewrite bind_run. cbn [set_downloaded_file result self_after events app].
    rewrite bind_run.
    destruct (get d "filename" (VStr "Unknown")) as [| b | z | p];
      cbn [basename lift raise mret M_ret result self_after events app];
      try reflexivity.
    rewrite bind_run, !notify_run. reflexivity.
Qed.

Lemma progress_hook_keeps_file (d : gmap string value) (self : YtDlpDownloader) :
  reports_finished d = false ->
  downloaded_file (self_after (progress_hook d self)) = downloaded_file self.
Proof.
  unfold reports_finished. intros Hd. apply bool_decide_eq_false in Hd.
  rewrite progress_hook_run.
  destruct (d !! "status") as [status |]; [| reflexivity].
  destruct (decide (status = VStr "downloading")); [reflexivity |].
  destruct (decide (status = VStr "finished")) as [-> | _]; [| reflexivity].
  destruct Hd. reflexivity.
Qed.


Lemma ydl_call_no_finished (y : ydl_run) (self : YtDlpDownloader) :
  no_finished y ->
  downloaded_file (self_after (ydl_call y self)) = downloaded_file self.
Proof.
  revert self. induction y as [| e | d k IH | lvl msg k IH]; intros self Hy;
    cbn [ydl_call no_finished] in *; try reflexivity.
  - destruct Hy as [Hd Hk]. rewrite bind_run.
    cbn [attempt result self_after events].
    rewrite IH by apply Hk. apply progress_hook_keeps_file, Hd.
  - rewrite bind_run, logger_result. cbn [self_after].
    rewrite IH by exact Hy. rewrite logger_self_after. reflexivity.
Qed.

(** X7. A download call that never hands a finished payload to the hook
    leaves nothing recorded, and the request then has no transcode step even
    when the conversion of the best format was asked for: if the call
    returns, [on_complete] follows at once. *)
Theorem no_finished_no_conversion
    (w : world) (url output_dir selected_format : string)
    (with_subtitles with_thumbnail convert_to_mp4 : bool)
    (self : YtDlpDownloader) :
  let opts := ydl_opts output_dir selected_format with_subtitles with_thumbnail in
  let o := download_video w url output_dir selected_format with_subtitles
             with_thumbnail convert_to_mp4 self in
  no_finished (ydl_download w opts [url]) ->
  downloaded_file (self_after o) = VNone /\
  Forall (fun e => is_transcode_event e = false) (events o) /\
  (YdlLeave None ∈ events o ->
   exists started,
     Forall (fun e => is_started_event e = true) started /\
     events o = started ++ YdlLeave None :: deliver (callbacks self) OnComplete).
Proof.
  cbv zeta. intros Hno.
  pose proof (ydl_call_no_finished _ (reset self) Hno) as Hfile.
  cbn [reset downloaded_file] in Hfile.
  rewrite download_video_run. cbv zeta.
  set (opts := ydl_opts _ _ _ _) in *.
  destruct (ydl_call_hook_events (ydl_download w opts [url]) (reset self))
    as [Hcbs Hhooks].
  change (callbacks (reset self)) with (callbacks self) in Hcbs.
  set (o := ydl_call (ydl_download w opts [url]) (reset self)) in *.
  pose proof (started_events (callbacks self)
                ("Starting download of " +:+ url) opts [url] _ Hhooks) as Hstarted.
  set (started := deliver (callbacks self) _ ++ YdlEnter opts [url] :: events o) in *.
  clearbody started.
  assert (Hquiet : Forall (fun e => is_transcode_event e = false) started).
  { eapply Forall_impl; [exact Hstarted |].
    intros [[| | |] | | | | |] Hx; (reflexivity || discriminate Hx). }
  rewrite Hfile. cbn [truthy]. rewrite !andb_false_r.
  destruct (result o) as [e | []]; cbn [self_after events]; rewrite Hcbs.
  - split; [exact Hfile |]. split.
    + apply Forall_app; split; [exact Hquiet |].
      constructor; [reflexivity | apply deliver_no_transcode].
    + intros Hin. exfalso. split_membership Hin. revert Hin.
      apply started_not_left. exact Hstarted.
  - split; [exact Hfile |]. split.
    + apply Forall_app; split; [exact Hquiet |].
      constructor; [reflexivity | apply deliver_no_transcode].
    + intros _. exists started. auto.
Qed.

(** A download that only reports progress. *)
Lemma no_finished_no_conversion_witness :
  Forall (fun e => is_transcode_event e = false)
    (events (download_video Situation.nothing_finished
               "https://example/video" "/tmp/out" "best" false false true
               Scenario.gui_downloader)).
Proof.
  refine (proj1 (proj2 (no_finished_no_conversion Situation.nothing_finished
            "https://example/video" "/tmp/out" "best" false false true
            Scenario.gui_downloader _))).
  vm_compute. split; [reflexivity | intros _; exact I].
Defined.




(** ** The entries of the option dict *)

Lemma ydl_opts_other_format
    (output_dir selected_format : string) (with_subtitles with_thumbnail : bool) :
  selected_format <> "mp3" -> selected_format <> "mp4" -> selected_format <> "webm" ->
  ydl_opts output_dir selected_format with_subtitles with_thumbnail =
  ydl_opts output_dir "best" with_subtitles with_thumbnail.
Proof.
  intros Hmp3 Hmp4 Hwebm. unfold ydl_opts.
  destruct (decide (selected_format = "mp3")); [contradiction |].
  destruct (decide (selected_format = "mp4")); [contradiction |].
  destruct (decide (selected_format = "webm")); [contradiction |].
  destruct (decide ("best" = "mp3")) as [Heq | _]; [discriminate Heq |].
  destruct (decide ("best" = "mp4")) as [Heq | _]; [discriminate Heq |].
  destruct (decide ("best" = "webm")) as [Heq | _]; [discriminate Heq |].
  reflexivity.
Qed.

(** X9. For every format string and every combination of the flags, the
    option dict has the output template under the output directory, the
    logger object, the progress hook and [quiet]; it asks for the manual and
    the automatic subtitles exactly when [with_subtitles] is set, and for the
    thumbnail exactly when [with_thumbnail] is set. A format string other
    than [mp3], [mp4] and [webm] gives the dict of [best], without a [format]
    entry. *)
Theorem ydl_opts_entries
    (output_dir selected_format : string) (with_subtitles with_thumbnail : bool) :
  let opts := ydl_opts output_dir selected_format with_subtitles with_thumbnail in
  opts !! "outtmpl" = Some (OStr (join output_dir "%(title)s.%(ext)s")) /\
  opts !! "logger" = Some OCustomLogger /\
  opts !! "progress_hooks" = Some (OHooks [self_progress_hook]) /\
  opts !! "quiet" = Some (OBool true) /\
  opts !! "writesubtitles" = (if with_subtitles then Some (OBool true) else None) /\
  opts !! "writeautomaticsub" = (if with_subtitles then Some (OBool true) else None) /\
  opts !! "writethumbnail" = (if with_thumbnail then Some (OBool true) else None) /\
  (selected_format <> "mp3" -> selected_format <> "mp4" -> selected_format <> "webm" ->
   opts !! "format" = None /\
   opts = ydl_opts output_dir "best" with_subtitles with_thumbnail).
Proof.
  cbv zeta.
  assert (Hknown : exists known,
            (known = "mp3" \/ known = "mp4" \/ known = "webm" \/ known = "best") /\
            ydl_opts output_dir selected_format with_subtitles with_thumbnail =
            ydl_opts output_dir known with_subtitles with_thumbnail).
  { destruct (decide (selected_format = "mp3")) as [-> | Hmp3]; [eauto 6 |].
    destruct (decide (selected_format = "mp4")) as [-> | Hmp4]; [eauto 6 |].
    destruct (decide (selected_format = "webm")) as [-> | Hwebm]; [eauto 6 |].
    exists "best". split; [auto |]. apply ydl_opts_other_format; assumption. }
  destruct Hknown as (known & Hcases & Hsame).
  do 7 (split;
        [ rewrite Hsame; destruct Hcases as [-> | [-> | [-> | ->]]];
          destruct with_subtitles, with_thumbnail; vm_compute; reflexivity | ]).
  intros Hmp3 Hmp4 Hwebm.
  rewrite (ydl_opts_other_format _ _ _ _ Hmp3 Hmp4 Hwebm).
  split; [| reflexivity].
  destruct with_subtitles, with_thumbnail; vm_compute; reflexivity.
Qed.

(** A format the window does not offer. *)
Lemma ydl_opts_entries_witness :
  ydl_opts "/tmp/out" "flac" true false = ydl_opts "/tmp/out" "best" true false.
Proof.
  destruct (ydl_opts_entries "/tmp/out" "flac" true false)
    as (_ & _ & _ & _ & _ & _ & _ & Hother).
  destruct Hother as [_ Hsame]; [discriminate | discriminate | discriminate |].
  exact Hsame.
Defined.

(** ** The start action of the window *)






(** ** The window takes the signals of a request *)

Lemma deliver_slot_safe (cbs : gset string) (n : notification) :
  slot_safe (Callback n) -> Forall slot_safe (deliver cbs n).
Proof.
  intros Hn. unfold deliver. destruct (decide _); [| constructor].
  constructor; [exact Hn | constructor].
Qed.

Lemma progress_hook_slot_safe (d : gmap string value) (self : YtDlpDownloader) :
  Forall slot_safe (events (progress_hook d self)).
Proof.
  rewrite progress_hook_run.
  destruct (d !! "status") as [status |]; [| constructor].
  destruct (decide (status = VStr "downloading")).
  - cbn [events]. apply deliver_slot_safe.
    right. split; [reflexivity |]. eexists. split; [reflexivity |].
    repeat split; eexists.
    + rewrite !lookup_insert_ne by discriminate. apply lookup_insert_eq.
    + rewrite lookup_insert_ne by discriminate. apply lookup_insert_eq.
    + apply lookup_insert_eq.
  - destruct (decide (status = VStr "finished")); [| constructor].
    cbv zeta. destruct (get d "filename" (VStr "Unknown")); try constructor.
    cbn [events]. apply Forall_app; split; apply deliver_slot_safe; [exact I |].
    left. auto.
Qed.

Lemma ydl_call_slot_safe (y : ydl_run) (self : YtDlpDownloader) :
  Forall slot_safe (events (ydl_call y self)).
Proof.
  revert self. induction y as [| e | d k IH | lvl msg k IH]; intros self;
    cbn [ydl_call]; try constructor.
  - rewrite bind_run. cbn [attempt result self_after events].
    apply Forall_app; split; [apply progress_hook_slot_safe | apply IH].
  - rewrite bind_run.
    destruct (keeps_logger slot_safe (fun _ => I) lvl msg self) as [_ Hlog].
    destruct (result _); cbn [events]; [exact Hlog |].
    apply Forall_app; split; [exact Hlog | apply IH].
Qed.

Lemma block_event_slot_safe (tr : list event) :
  Forall (fun e => is_block_event e = true) tr -> Forall slot_safe tr.
Proof.
  intros H. eapply Forall_impl; [exact H |].
  intros [[| | |] | | | | |] Hx; (exact I || discriminate Hx).
Qed.

Lemma download_video_slot_safe
    (w : world) (url output_dir selected_format : string)
    (with_subtitles with_thumbnail convert_to_mp4 : bool)
    (self : YtDlpDownloader) :
  Forall slot_safe
    (events (download_video w url output_dir selected_format with_subtitles
               with_thumbnail convert_to_mp4 self)).
Proof.
  rewrite download_video_run. cbv zeta.
  set (opts := ydl_opts _ _ _ _).
  pose proof (ydl_call_slot_safe (ydl_download w opts [url]) (reset self)) as Hhooks.
  set (o := ydl_call (ydl_download w opts [url]) (reset self)) in *.
  pose proof (convert_step_block_events w (downloaded_file (self_after o))
                (self_after o)) as Hblock.
  apply block_event_slot_safe in Hblock.
  set (block := convert_step w (downloaded_file (self_after o)) (self_after o)) in *.
  clearbody block.
  destruct (result o) as [e | []]; cbn [events].
  2: destruct (bool_decide _ && convert_to_mp4 && truthy _); cbn [events].
  2: destruct (result block) as [e | [|]]; cbn [closing from_option].
  all: repeat first [ apply Forall_app; split | apply Forall_cons; split
                    | apply Forall_nil ];
       try exact I; try assumption; try (apply deliver_slot_safe; exact I).
Qed.

Lemma dispatch_app (g : Gui.YtDlpGui) (tr1 tr2 : list event) :
  Gui.dispatch g (tr1 ++ tr2) =
  match Gui.dispatch g tr1 with
  | inr g1 => Gui.dispatch g1 tr2
  | inl e => inl e
  end.
Proof.
  revert g. induction tr1 as [| e tr1 IH]; intros g; [reflexivity |].
  destruct e as [n | | | | |]; cbn [app Gui.dispatch]; try apply IH.
  destruct (Gui.slot g n); [reflexivity | apply IH].
Qed.

(** A progress update of the hook never makes the slot raise. *)
Lemma update_progress_hook_progress (g : Gui.YtDlpGui) (status : string)
    (data : option (gmap string value)) :
  hook_progress status data ->
  exists shown label,
    Gui.update_progress g status data = inr (Gui.set_progress g shown label).
Proof.
  intros [[-> ->] | (-> & d & -> & [p Hp] & [s Hs] & [e He])].
  - eexists _, _. reflexivity.
  - unfold Gui.update_progress. rewrite bool_decide_eq_true_2 by reflexivity.
    rewrite bool_decide_eq_false_2.
    + cbn [negb andb]. rewrite Hp, Hs, He. eexists _, _. reflexivity.
    + intros ->. rewrite lookup_empty in Hp. discriminate Hp.
Qed.

(** Before the terminal notification the window only writes its log and
    its progress display. *)
Lemma dispatch_quiet (g : Gui.YtDlpGui) (tr : list event) :
  Forall slot_safe tr ->
  terminal_outcomes tr = [] ->
  exists g',
    Gui.dispatch g tr = inr g' /\
    Gui.boxes g' = Gui.boxes g /\
    Gui.log_text g' = Gui.log_text g ++ log_lines tr /\
    inputs g' = inputs g.
Proof.
  intros Hsafe. revert g.
  induction Hsafe as [| e tr He _ IH]; intros g Hquiet.
  - exists g. cbn [log_lines]. rewrite app_nil_r. auto.
  - destruct e as [[message | status data | | msg] | | | | |];
      cbn [terminal_outcomes is_terminal] in Hquiet; try discriminate Hquiet;
      cbn [Gui.dispatch Gui.slot log_lines].
    + destruct (IH (Gui.log_message g message) Hquiet) as (g' & Hd & Hb & Hl & Hi).
      exists g'. split; [exact Hd |]. split; [exact Hb |]. split; [| exact Hi].
      rewrite Hl. cbn [Gui.log_message Gui.log_text]. rewrite <- app_assoc. reflexivity.
    + destruct (update_progress_hook_progress g status data He) as (shown & label & ->).
      destruct (IH (Gui.set_progress g shown label) Hquiet) as (g' & Hd & Hb & Hl & Hi).
      exists g'. auto.
    + apply IH, Hquiet.
    + apply IH, Hquiet.
    + apply IH, Hquiet.
    + apply IH, Hquiet.
    + apply IH, Hquiet.
Qed.

Lemma update_progress_frame (g g1 : Gui.YtDlpGui) (status : string)
    (data : option (gmap string value)) :
  Gui.update_progress g status data = inr g1 ->
  Gui.log_text g1 = Gui.log_text g /\ Gui.boxes g1 = Gui.boxes g /\
  inputs g1 = inputs g.
Proof.
  unfold Gui.update_progress. intros H.
  destruct data as [d |].
  - destruct (bool_decide (status = "downloading") && negb (bool_decide (d = ∅))).
    + destruct (d !! "percent"), (d !! "speed"), (d !! "eta"); try discriminate H;
        injection H as <-; auto.
    + destruct (bool_decide (status = "processing")); injection H as <-; auto.
  - destruct (bool_decide (status = "processing")); injection H as <-; auto.
Qed.

(** X11. The log of the window follows the signals in their order. When
    the slots take a trace without raising, the log is the former log
    followed, in the order of emission, by each log message as it was
    emitted and by ["Error: "] with the message for each failure; the URL, the
    format, the directory, the two check boxes and the downloader object are
    left as they were, and no message box is taken away. *)
Theorem dispatch_appends_log (tr : list event) (g g' : Gui.YtDlpGui) :
  Gui.dispatch g tr = inr g' ->
  Gui.log_text g' = Gui.log_text g ++ log_lines tr /\
  inputs g' = inputs g /\
  exists shown, Gui.boxes g' = Gui.boxes g ++ shown.
Proof.
  revert g. induction tr as [| e tr IH]; intros g Hd.
  - injection Hd as <-. cbn [log_lines]. rewrite app_nil_r.
    split; [reflexivity |]. split; [reflexivity |]. exists []. rewrite app_nil_r.
    reflexivity.
  - destruct e as [[message | status data | | msg] | | | | |];
      cbn [Gui.dispatch Gui.slot log_lines] in *; try (apply IH; exact Hd).
    + destruct (IH _ Hd) as (Hl & Hi & shown & Hb).
      split; [| split; [exact Hi | exists shown; exact Hb]].
      rewrite Hl. cbn [Gui.log_message Gui.log_text]. rewrite <- app_assoc. reflexivity.
    + destruct (Gui.update_progress g status data) as [e | g1] eqn:Hup;
        [discriminate Hd |].
      apply update_progress_frame in Hup as (Hl1 & Hb1 & Hi1).
      destruct (IH _ Hd) as (Hl & Hi & shown & Hb).
      rewrite Hl, Hi, Hb, Hl1, Hb1, Hi1. eauto.
    + destruct (IH _ Hd) as (Hl & Hi & shown & Hb).
      split; [exact Hl |]. split; [exact Hi |].
      rewrite Hb. cbn [Gui.download_complete Gui.show_box Gui.boxes Gui.set_progress].
      rewrite <- app_assoc. eauto.
    + destruct (IH _ Hd) as (Hl & Hi & shown & Hb).
      split; [| split; [exact Hi |]].
      * rewrite Hl. cbn [Gui.download_error Gui.show_box Gui.log_message
                           Gui.set_progress Gui.log_text].
        rewrite <- app_assoc. reflexivity.
      * rewrite Hb. cbn [Gui.download_error Gui.show_box Gui.boxes Gui.log_message
                           Gui.set_progress].
        rewrite <- app_assoc. eauto.
Qed.

(** The log of the window after the conversion that fails. *)
Lemma dispatch_appends_log_witness :
  exists g',
    Gui.dispatch Scenario.window
      (events (Scenario.convert_request
                 (Scenario.world_of "/tmp/out/clip.webm" "video"
                    (Exited 1 EmptyString Scenario.ffmpeg_diagnostic)))) = inr g' /\
    Gui.log_text g' =
    [ "Starting download of https://example/video";
      "[youtube] Extracting URL: https://example/video";
      "Download finished: clip.webm";
      "Error: ffmpeg conversion failed: Command '['ffmpeg', '-y', '-i', '/tmp/out/clip.webm', '-c:v', 'libx264', '-preset', 'ultrafast', '-c:a', 'copy', '/tmp/out/clip.mp4']' returned non-zero exit status 1." ].
Proof.
  destruct (Gui.dispatch Scenario.window
              (events (Scenario.convert_request
                         (Scenario.world_of "/tmp/out/clip.webm" "video"
                            (Exited 1 EmptyString Scenario.ffmpeg_diagnostic)))))
    as [e | g'] eqn:Hd; [vm_compute in Hd; discriminate Hd |].
  exists g'. split; [reflexivity |].
  destruct (dispatch_appends_log _ _ _ Hd) as [Hlog _].
  rewrite Hlog. vm_compute. reflexivity.
Defined.

(** A request ends with one terminal notification, after everything
    else. *)
Lemma download_video_ends
    (w : world) (url output_dir selected_format : string)
    (with_subtitles with_thumbnail convert_to_mp4 : bool)
    (self : YtDlpDownloader) :
  exists pre t,
    events (download_video w url output_dir selected_format with_subtitles
              with_thumbnail convert_to_mp4 self) =
    pre ++ deliver (callbacks self) t /\
    is_terminal t = true /\ terminal_outcomes pre = [].
Proof.
  destruct (download_video_self_after w url output_dir selected_format
              with_subtitles with_thumbnail convert_to_mp4 self) as [_ Hcbs].
  destruct (download_video_shape w url output_dir selected_format with_subtitles
              with_thumbnail convert_to_mp4 self)
    as (started & r & Hstarted & [[Htest Hev] | [Htest (t & Ht & Hev)]]);
    cbv zeta in *; rewrite Hev; clear Hev.
  - assert (Hquiet : terminal_outcomes (started ++ [YdlLeave None]) = []).
    { rewrite terminal_outcomes_app. cbn. rewrite app_nil_r.
      apply terminal_outcomes_none. eapply Forall_impl; [exact Hstarted |].
      intros [[| | |] | | | | |] Hx; (reflexivity || discriminate Hx). }
    destruct (convert_step_closing w
                (downloaded_file (self_after (download_video w url output_dir
                   selected_format with_subtitles with_thumbnail convert_to_mp4 self)))
                (self_after (download_video w url output_dir
                   selected_format with_subtitles with_thumbnail convert_to_mp4 self)))
      as (_ & pre & tail & Hblock & Hpre & Htail).
    rewrite Hblock. rewrite Hcbs in Htail.
    destruct (result (convert_step w _ _)) as [e | [|]]; cbn [closing from_option].
    + subst tail. exists ((started ++ [YdlLeave None]) ++ pre), (OnError (exn_str e)).
      split; [same_list |]. split; [reflexivity |].
      rewrite terminal_outcomes_app, Hquiet, Hpre. reflexivity.
    + subst tail. exists ((started ++ [YdlLeave None]) ++ pre), OnComplete.
      split; [same_list |]. split; [reflexivity |].
      rewrite terminal_outcomes_app, Hquiet, Hpre. reflexivity.
    + destruct Htail as [msg ->].
      exists ((started ++ [YdlLeave None]) ++ pre), (OnError msg).
      split; [same_list |]. split; [reflexivity |].
      rewrite terminal_outcomes_app, Hquiet, Hpre. reflexivity.
  - exists (started ++ [YdlLeave r]), t.
    split; [same_list |]. split; [exact Ht |].
    rewrite terminal_outcomes_app. cbn. rewrite app_nil_r.
    apply terminal_outcomes_none. eapply Forall_impl; [exact Hstarted |].
    intros [[| | |] | | | | |] Hx; (reflexivity || discriminate Hx).
Qed.

(** X12. The window takes every request to its end. For a downloader
    whose bag holds [on_complete] and [on_error] (the window registers all
    four callbacks), the slots take the signals of any request without
    raising; afterwards the progress bar is hidden and exactly one message
    box was added: the success box under the label ["Download complete!"], or
    the error box with the failure message under the label
    ["Error occurred"]. *)
Theorem window_after_request
    (w : world) (url output_dir selected_format : string)
    (with_subtitles with_thumbnail convert_to_mp4 : bool)
    (self : YtDlpDownloader) (g : Gui.YtDlpGui) :
  "on_complete" ∈ callbacks self ->
  "on_error" ∈ callbacks self ->
  exists g',
    Gui.dispatch g
      (events (download_video w url output_dir selected_format with_subtitles
                 with_thumbnail convert_to_mp4 self)) = inr g' /\
    Gui.progress_bar_shown g' = false /\
    inputs g' = inputs g /\
    ((Gui.status_label g' = "Download complete!" /\
      Gui.boxes g' =
        Gui.boxes g ++
        [Gui.MessageBox Gui.Information "Success" "Download completed successfully!"])
     \/
     (exists msg,
        Gui.status_label g' = "Error occurred" /\
        Gui.boxes g' =
          Gui.boxes g ++
          [Gui.MessageBox Gui.Critical "Error" ("Download failed: " +:+ msg)])).
Proof.
  intros Hcomplete Herror.
  pose proof (download_video_slot_safe w url output_dir selected_format
                with_subtitles with_thumbnail convert_to_mp4 self) as Hsafe.
  destruct (download_video_ends w url output_dir selected_format
              with_subtitles with_thumbnail convert_to_mp4 self)
    as (pre & t & Hev & Ht & Hpre).
  rewrite Hev in *. clear Hev.
  apply Forall_app in Hsafe as [Hsafe _].
  destruct (dispatch_quiet g pre Hsafe Hpre) as (g1 & Hd & Hb & _ & Hi).
  rewrite dispatch_app, Hd.
  destruct t as [| | | msg]; try discriminate Ht.
  - rewrite deliver_registered by exact Hcomplete.
    cbn [Gui.dispatch Gui.slot]. eexists. split; [reflexivity |].
    split; [reflexivity |]. split; [exact Hi |]. left.
    split; [reflexivity |]. cbn. rewrite Hb. reflexivity.
  - rewrite deliver_registered by exact Herror.
    cbn [Gui.dispatch Gui.slot]. eexists. split; [reflexivity |].
    split; [reflexivity |]. split; [exact Hi |]. right. exists msg.
    split; [reflexivity |]. cbn. rewrite Hb. reflexivity.
Qed.

(** The window of the scenario after the conversion that works. *)
Lemma window_after_request_witness :
  exists g',
    Gui.dispatch Scenario.window
      (events (Scenario.convert_request
                 (Scenario.world_of "/tmp/out/clip.webm" "video"
                    (Exited 0 EmptyString EmptyString)))) = inr g' /\
    Gui.progress_bar_shown g' = false.
Proof.
  destruct (window_after_request
              (Scenario.world_of "/tmp/out/clip.webm" "video"
                 (Exited 0 EmptyString EmptyString))
              "https://example/video" "/tmp/out" "best" false false true
              Scenario.gui_downloader Scenario.window)
    as (g' & Hd & Hbar & _).
  - vm_compute. reflexivity.
  - vm_compute. reflexivity.
  - exists g'. split; [exact Hd | exact Hbar].
Defined.

(** ** The check of the dependencies *)



(** X14. The message about yt-dlp is never shown. The script imports
    [main.py], and with it [yt_dlp], before [main] runs: without the library
    the script ends at that import; with it, a refusal of [main] is always
    the one about FFmpeg. *)
Theorem script_never_reports_yt_dlp (h : host) :
  (yt_dlp_importable h = false -> Gui.run_script h = None) /\
  (forall shown status,
     Gui.run_script h = Some (Gui.Refused shown status) ->
     Gui.text shown =
       "FFmpeg is not installed. Please install it with 'brew install ffmpeg'") /\
  (forall started,
     Gui.run_script h = Some started -> yt_dlp_importable h = true /\ started = Gui.main h).
Proof.
  unfold Gui.run_script. destruct (yt_dlp_importable h) eqn:Himp.
  - split; [discriminate |]. split.
    + intros shown status Hs. injection Hs as Hm.
      unfold Gui.main, check_dependencies, Gui.show_dependency_error in Hm.
      rewrite Himp in Hm. cbn [negb] in Hm.
      destruct (ffmpeg_version h) as [o | strerror].
      * destruct (completed ["ffmpeg"; "-version"] true o) as [e | out];
          [destruct (is_SubprocessError e) |]; try discriminate Hm.
        injection Hm as <- _. reflexivity.
      * injection Hm as <- _. reflexivity.
    + intros started Hs. injection Hs as <-. auto.
  - split; [reflexivity |]. split; intros; discriminate.
Qed.

(** A machine without yt-dlp, and one without ffmpeg. *)
Lemma script_never_reports_yt_dlp_witness :
  Gui.run_script Situation.no_yt_dlp = None /\
  Gui.run_script Situation.no_ffmpeg =
    Some (Gui.Refused
            (Gui.MessageBox Gui.Critical "Missing Dependency"
               "FFmpeg is not installed. Please install it with 'brew install ffmpeg'")
            1).
Proof.
  split.
  - apply (proj1 (script_never_reports_yt_dlp Situation.no_yt_dlp)). reflexivity.
  - reflexivity.
Defined.
